(** * KPOD to MIDI bridge: the report decoder and event dispatch engine

    A shallow embedding of the polling loops of [gui_main.py] (the GUI
    bridge, class [KPODBridgeGUI]) and [kpod.py] (the command line script),
    and the properties of the MIDI stream they produce.

    Bytes of a HID report are [byte]s, read as Python ints through
    [byte_to_Z]; Python ints are [Z]; the dictionaries are stdpp [gmap]s;
    rocker positions are the strings the code stores.  A poll cycle is a
    program in a small state-and-trace monad: the state is the object the
    code mutates, the trace is the ordered list of calls made on the
    collaborators (the MIDI port, the log queue). *)

From Stdlib Require Import ZArith List Lia Bool.
From Stdlib.Strings Require Import Byte String.
From stdpp Require Import base gmap strings list.
Import ListNotations.
Local Open Scope Z_scope.

(** ** Programs with state and an output trace *)

Definition prog (St Ev A : Type) : Type := St -> A * St * list Ev.

Definition result {St Ev A} (r : A * St * list Ev) : A := fst (fst r).
Definition state_of {St Ev A} (r : A * St * list Ev) : St := snd (fst r).
Definition trace_of {St Ev A} (r : A * St * list Ev) : list Ev := snd r.

#[global] Instance prog_ret {St Ev} : MRet (prog St Ev) :=
  fun A (a : A) s => (a, s, []).

#[global] Instance prog_bind {St Ev} : MBind (prog St Ev) :=
  fun A B (k : A -> prog St Ev B) (m : prog St Ev A) s =>
    let r1 := m s in
    let r2 := k (result r1) (state_of r1) in
    (result r2, state_of r2, trace_of r1 ++ trace_of r2).

Definition get_state {St Ev} : prog St Ev St := fun s => (s, s, []).
Definition put_state {St Ev} (s' : St) : prog St Ev unit := fun _ => (tt, s', []).
Definition emit {St Ev} (e : Ev) : prog St Ev unit := fun s => (tt, s, [e]).

(** [for _ in range(n): body] *)
Fixpoint for_range {St Ev} (n : nat) (body : prog St Ev unit) : prog St Ev unit :=
  match n with
  | O => mret tt
  | S n' => body ;; for_range n' body
  end.

(** ** Report fields *)

Definition byte_to_Z (b : byte) : Z := Z.of_N (Byte.to_N b).

(** [struct.unpack("<h", bytes([lo, hi]))[0]]: little-endian, signed, 16 bits. *)
Definition unpack_h (lo hi : byte) : Z :=
  let u := byte_to_Z lo + 256 * byte_to_Z hi in
  if u <? 32768 then u else u - 65536.

(** A response of 8 bytes: the command echo, the tick delta (low byte
    first), the control byte, four bytes the programs do not read. *)
Definition report (cmd tick_lo tick_hi controls : byte) : option (list byte) :=
  Some [cmd; tick_lo; tick_hi; controls; x00; x00; x00; x00].

(** The two messages of one [send_note(note, velocity)] call. *)
Definition note_on (note velocity : Z) : list Z := [0x90; note; velocity].
Definition note_off (note : Z) : list Z := [0x80; note; 0].
Definition note_pair (note velocity : Z) : list (list Z) :=
  [note_on note velocity; note_off note].

(** [k] calls of [send_note(note)] in a row. *)
Fixpoint note_pairs (k : nat) (note : Z) : list (list Z) :=
  match k with
  | O => []
  | S k' => note_pair note 127 ++ note_pairs k' note
  end.

(** A MIDI stream made of adjacent Note-On/Note-Off pairs only. *)
Inductive paired : list (list Z) -> Prop :=
| paired_nil : paired []
| paired_cons note velocity rest :
    paired rest -> paired (note_on note velocity :: note_off note :: rest).

(** [i] is the index of the lowest set bit of [b]. *)
Definition lowest_set_bit (b i : Z) : Prop :=
  0 <= i /\ Z.testbit b i = true /\
  forall j, 0 <= j < i -> Z.testbit b j = false.

(** ** gui_main.py *)

Module gui_main.

Definition KPOD_USB_CMD_UPDATE : Z := 117.   (* ord('u') *)
Definition REPORT_LEN : nat := 8.

Definition TAP_NOTE_MAP : gmap Z Z :=
  list_to_map [(0x41, 64); (0x42, 65); (0x43, 66); (0x44, 67);
               (0x45, 68); (0x46, 69); (0x47, 70); (0x48, 71)].

Definition HOLD_NOTE_MAP : gmap Z Z :=
  list_to_map [(0x51, 72); (0x52, 73); (0x53, 74); (0x54, 75);
               (0x55, 76); (0x56, 77); (0x57, 78); (0x58, 79)].

Definition ROCKER_POSITION_NOTES : gmap string Z :=
  list_to_map [("VFO A"%string, 110); ("VFO B"%string, 111);
               ("XIT/RIT"%string, 112)].

Definition ENCODER_NOTES : gmap string Z :=
  list_to_map [("CW"%string, 100); ("CCW"%string, 101)].

(** The local [tap_hold], ["TAP"] or ["HOLD"]. *)
Inductive tap_hold : Type := TAP | HOLD.

(** The [action] texts the worker logs, kept as their fields. *)
Inductive action : Type :=
| RockerAction (new_position : string) (note : Z)
| EncoderCW (note : Z) (at_position : string)
| EncoderCCW (note : Z) (at_position : string)
| ButtonAction (mode : tap_hold) (button_num : Z) (note : Z).

(** Calls on the collaborators, in program order. *)
Inductive effect : Type :=
| send_message (msg : list Z)        (* self.midi_out.send_message(msg) *)
| log_action (a : action)            (* log_message(action); update_last_action(action) *)
| rocker_display (position : string) (* update_rocker_display(position) *).

(** The fields of [KPODBridgeGUI] the worker reads and writes.  [midi_out]
    is [None] until [setup_midi] has opened a port. *)
Record KPODBridgeGUI : Type := {
  midi_out : option nat;
  current_rocker : string
}.

Definition set_current_rocker (p : string) : prog KPODBridgeGUI effect unit :=
  fun self => (tt, {| midi_out := midi_out self; current_rocker := p |}, []).

(** The state [__init__] builds, before and after [setup_midi] succeeded. *)
Definition init (port : option nat) : KPODBridgeGUI :=
  {| midi_out := port; current_rocker := "UNKNOWN" |}.

Definition detect_rocker_position_from_event
    (controls : Z) (has_activity : bool) (self : KPODBridgeGUI) : option string :=
  let rocker_bits := Z.land (Z.shiftr controls 5) 0x03 in
  if rocker_bits =? 2 then Some "VFO A"%string
  else if rocker_bits =? 1 then Some "XIT/RIT"%string
  else if (controls =? 0x00) && has_activity then Some "VFO B"%string
  else if (controls =? 0x00)
          && negb (existsb (String.eqb (current_rocker self))
                           ["VFO B"%string; "UNKNOWN"%string])
       then Some "VFO B"%string
  else None.

(** The MIDI port is taken to accept every message; when there is no port
    nothing is sent. *)
Definition send_note (note : Z) (velocity : Z) : prog KPODBridgeGUI effect unit :=
  self ← get_state;
  match midi_out self with
  | Some _ =>
      emit (send_message [0x90; note; velocity]) ;;
      emit (send_message [0x80; note; 0])
  | None => mret tt
  end.

Definition send_rocker_position_change (new_position : string)
  : prog KPODBridgeGUI effect bool :=
  match ROCKER_POSITION_NOTES !! new_position with
  | Some note =>
      send_note note 127 ;;
      emit (log_action (RockerAction new_position note)) ;;
      mret true
  | None => mret false
  end.

Definition get_encoder_notes (self : KPODBridgeGUI) : Z * Z :=
  if (current_rocker self =? "XIT/RIT")%string then (102, 103)
  else (ENCODER_NOTES !!! "CW"%string, ENCODER_NOTES !!! "CCW"%string).

(** One poll cycle of [kpod_worker], in the order of the source: rocker
    position, encoder, buttons. *)

(** [# Detect rocker position changes] *)
Definition handle_rocker (controls : Z) (has_activity : bool)
  : prog KPODBridgeGUI effect unit :=
  self ← get_state;
  match detect_rocker_position_from_event controls has_activity self with
  | Some new_position =>
      if negb (new_position =? current_rocker self)%string then
        send_rocker_position_change new_position ;;
        set_current_rocker new_position ;;
        emit (rocker_display new_position)
      else mret tt
  | None => mret tt
  end.

(** [# Handle encoder - position-dependent notes] *)
Definition handle_encoder (ticks : Z) : prog KPODBridgeGUI effect unit :=
  self ← get_state;
  let '(cw_note, ccw_note) := get_encoder_notes self in
  if 0 <? ticks then
    for_range (Z.to_nat ticks)
      (send_note cw_note 127 ;;
       emit (log_action (EncoderCW cw_note (current_rocker self))))
  else if ticks <? 0 then
    for_range (Z.to_nat (Z.abs ticks))
      (send_note ccw_note 127 ;;
       emit (log_action (EncoderCCW ccw_note (current_rocker self))))
  else mret tt.

(** [# Use correct note mapping]: the table entry of the combined flag
    value when there is one, else the fallback [base_note + i]. *)
Definition button_note (mode : tap_hold) (button_bits i : Z) : Z :=
  match mode, TAP_NOTE_MAP !! Z.lor 0x40 button_bits,
              HOLD_NOTE_MAP !! Z.lor 0x50 button_bits with
  | TAP, Some n, _ => n
  | HOLD, _, Some n => n
  | _, _, _ =>
      let base_note := match mode with TAP => 64 | HOLD => 72 end in
      base_note + i
  end.

(** The body run for the first [i] with [button_bits & (1 << i)]. *)
Definition press_button (mode : tap_hold) (button_bits i : Z)
  : prog KPODBridgeGUI effect unit :=
  let button_num := i + 1 in
  let note := button_note mode button_bits i in
  send_note note 127 ;;
  emit (log_action (ButtonAction mode button_num note)).

(** [for i in range(8): if button_bits & (1 << i): ...; break] over the
    remaining [indices]. *)
Fixpoint find_button (mode : tap_hold) (button_bits : Z) (indices : list Z)
  : prog KPODBridgeGUI effect unit :=
  match indices with
  | [] => mret tt
  | i :: rest =>
      if negb (Z.land button_bits (Z.shiftl 1 i) =? 0)
      then press_button mode button_bits i
      else find_button mode button_bits rest
  end.

(** [tap_hold = "HOLD" if (controls & 0x10) else "TAP"] *)
Definition tap_hold_of (controls : Z) : tap_hold :=
  if negb (Z.land controls 0x10 =? 0) then HOLD else TAP.

(** [# Handle buttons] *)
Definition handle_buttons (controls : Z) : prog KPODBridgeGUI effect unit :=
  let button_bits := Z.land controls 0x0F in
  if negb (button_bits =? 0) then
    find_button (tap_hold_of controls) button_bits [0; 1; 2; 3; 4; 5; 6; 7]
  else mret tt.

(** [has_activity = ticks != 0 or (controls & 0x0F) != 0] *)
Definition has_activity_of (ticks controls : Z) : bool :=
  negb (ticks =? 0) || negb (Z.land controls 0x0F =? 0).

(** The body of the [while self.running] loop for one [response] of
    [send_kpod_command('u')] ([None] when the command failed). *)
Definition poll_cycle (response : option (list byte))
  : prog KPODBridgeGUI effect unit :=
  match response with
  | Some [r0; r1; r2; r3; _; _; _; _] =>   (* response and len(response) == 8 *)
      let cmd_reply := byte_to_Z r0 in
      let ticks := unpack_h r1 r2 in
      let controls := byte_to_Z r3 in
      if cmd_reply =? KPOD_USB_CMD_UPDATE then
        let has_activity := has_activity_of ticks controls in
        handle_rocker controls has_activity ;;
        handle_encoder ticks ;;
        handle_buttons controls
      else mret tt
  | _ => mret tt
  end.

(** The loop, one iteration per response read while [self.running]. *)
Fixpoint kpod_worker (responses : list (option (list byte)))
  : prog KPODBridgeGUI effect unit :=
  match responses with
  | [] => mret tt
  | response :: rest => poll_cycle response ;; kpod_worker rest
  end.

(** The messages that reached the MIDI port. *)
Definition midi_sent (t : list effect) : list (list Z) :=
  flat_map (fun e => match e with send_message m => [m] | _ => [] end) t.

(** The device behind [self.device]: what [read(REPORT_LEN)] returns after
    [write(pkt)], [None] when one of the two calls raises. *)
Definition hid_device : Type := list Z -> option (list byte).

(** The packet of [send_kpod_command(cmd_char, data)], [cmd] being
    [ord(cmd_char)].  [bytes(...)] raises on a value outside [range(256)];
    the [except] branch then returns [None]. *)
Definition command_packet (cmd : Z) (data : option (list Z)) : option (list Z) :=
  let data := match data with None => replicate 7 0 | Some d => d end in
  let cmd_data := take 7 data ++ replicate (7 - length data) 0 in
  let pkt := cmd :: cmd_data in
  if forallb (fun b => (0 <=? b) && (b <? 256)) pkt then Some pkt else None.

Definition send_kpod_command (device : option hid_device) (cmd : Z)
    (data : option (list Z)) : option (list byte) :=
  match device with
  | None => None
  | Some dev =>
      match command_packet cmd data with
      | Some pkt => dev pkt
      | None => None
      end
  end.

(** [get_device_info]: the two log lines, kept as their fields. *)
Inductive device_info : Type :=
| DeviceID (id_string : string)
| FirmwareVersion (major minor : Z).

(** [''.join(chr(b) for b in id_response[1:8] if b != 0)], under
    [id_response and len(id_response) >= 8]. *)
Definition device_id (id_response : option (list byte)) : option string :=
  match id_response with
  | Some r =>
      if (8 <=? length r)%nat
      then Some (string_of_list_byte
                   (List.filter (fun b => negb (Byte.eqb b x00))
                                (take 7 (drop 1 r))))
      else None
  | None => None
  end.

(** [major = version_bcd // 100; minor = version_bcd % 100], under
    [ver_response and len(ver_response) >= 3]. *)
Definition firmware_version (ver_response : option (list byte)) : option (Z * Z) :=
  match ver_response with
  | Some (_ :: r1 :: r2 :: _) =>
      let version_bcd := unpack_h r1 r2 in
      Some (version_bcd / 100, version_bcd mod 100)
  | _ => None
  end.

Definition get_device_info (device : option hid_device) : list device_info :=
  let id_response := send_kpod_command device 61 None in      (* '=' *)
  let ver_response := send_kpod_command device 118 None in    (* 'v' *)
  match device_id id_response with
  | Some id_string => [DeviceID id_string]
  | None => []
  end ++
  match firmware_version ver_response with
  | Some (major, minor) => [FirmwareVersion major minor]
  | None => []
  end.

(** [update_rocker_display]: the text put on the queue. *)
Definition display_names : gmap string string :=
  list_to_map [("VFO A"%string, "VFO A (Left)"%string);
               ("VFO B"%string, "VFO B (Center)"%string);
               ("XIT/RIT"%string, "XIT/RIT (Right)"%string);
               ("UNKNOWN"%string, "Unknown (move rocker to detect)"%string)].

Definition display_name (position : string) : string :=
  default position (display_names !! position).

End gui_main.

(** ** kpod.py *)

Module kpod.

Definition TAP_NOTE_MAP : gmap Z Z :=
  list_to_map [(0x41, 64); (0x42, 65); (0x43, 66); (0x44, 67);
               (0x45, 68); (0x46, 69); (0x47, 70); (0x48, 71)].

Definition HOLD_NOTE_MAP : gmap Z Z :=
  list_to_map [(0x51, 72); (0x52, 73); (0x53, 74); (0x54, 75);
               (0x55, 76); (0x56, 77); (0x57, 78); (0x58, 79)].

(** Encoder notes by rocker position: [0x40] left, [0x00] center,
    [0x20] right. *)
Definition ROCKER_NOTE_MAP : gmap Z (Z * Z) :=
  list_to_map [(0x40, (100, 101)); (0x00, (102, 103)); (0x20, (104, 105))].

(** The locals of [main] that live across iterations. *)
Record locals : Type := {
  current_rocker : Z;
  last_flags : Z
}.

Definition init : locals := {| current_rocker := 0x00; last_flags := 0 |}.

(** The trace holds the messages given to [midi_out.send_message]; the
    [print] calls are left out. *)
Definition send_note (note velocity : Z) : prog locals (list Z) unit :=
  emit [0x90; note; velocity] ;;
  emit [0x80; note; 0].

(** [# Rocker detection (stateful)] *)
Definition detect_rocker (flags : Z) : prog locals (list Z) unit :=
  st ← get_state;
  if negb (Z.land flags 0x40 =? 0) then
    put_state {| current_rocker := 0x40; last_flags := last_flags st |}
  else if negb (Z.land flags 0x20 =? 0) then
    put_state {| current_rocker := 0x20; last_flags := last_flags st |}
  else if (current_rocker st =? 0x40) || (current_rocker st =? 0x20) then
    put_state {| current_rocker := 0x00; last_flags := last_flags st |}
  else mret tt.

(** [# Send MIDI notes based on encoder direction] *)
Definition send_ticks (ticks : Z) : prog locals (list Z) unit :=
  st ← get_state;
  let '(cw_note, ccw_note) :=
    default (102, 103) (ROCKER_NOTE_MAP !! current_rocker st) in
  if 0 <? ticks then for_range (Z.to_nat ticks) (send_note cw_note 127)
  else if ticks <? 0 then
    for_range (Z.to_nat (Z.abs ticks)) (send_note ccw_note 127)
  else mret tt.

(** [# TAP and HOLD detection], on a change of [flags] only. *)
Definition detect_buttons (flags : Z) : prog locals (list Z) unit :=
  st ← get_state;
  if negb (flags =? last_flags st) then
    match TAP_NOTE_MAP !! flags, HOLD_NOTE_MAP !! flags with
    | Some note, _ => send_note note 127
    | None, Some note => send_note note 127
    | None, None => mret tt
    end ;;
    st' ← get_state;
    put_state {| current_rocker := current_rocker st'; last_flags := flags |}
  else mret tt.

(** The body of [while True] for one [response] of [dev.read]. *)
Definition poll_cycle (response : option (list byte))
  : prog locals (list Z) unit :=
  match response with
  | Some [_; r1; r2; r3; _; _; _; _] =>    (* response and len(response) == 8 *)
      let ticks := unpack_h r1 r2 in
      let flags := byte_to_Z r3 in
      detect_rocker flags ;;
      send_ticks ticks ;;
      detect_buttons flags
  | _ => mret tt
  end.

Fixpoint main (responses : list (option (list byte)))
  : prog locals (list Z) unit :=
  match responses with
  | [] => mret tt
  | response :: rest => poll_cycle response ;; main rest
  end.

End kpod.

(** ** Observations on a MIDI stream *)

(** The note classes: buttons 64..79, encoder 100..105 (the GUI bridge uses
    100..103), rocker position changes 110..112. *)
Definition note_in (lo hi : Z) (msg : list Z) : bool :=
  match msg with
  | [_; note; _] => (lo <=? note) && (note <=? hi)
  | _ => false
  end.

Definition msgs_in (lo hi : Z) (stream : list (list Z)) : list (list Z) :=
  filter (fun m => Is_true (note_in lo hi m)) stream.

Definition button_msgs : list (list Z) -> list (list Z) := msgs_in 64 79.
Definition encoder_msgs : list (list Z) -> list (list Z) := msgs_in 100 105.

(** The note the encoder stage plays for [ticks] at the position of [self]. *)
Definition encoder_note (self : gui_main.KPODBridgeGUI) (ticks : Z) : Z :=
  if 0 <? ticks then fst (gui_main.get_encoder_notes self) else snd (gui_main.get_encoder_notes self).

(** The note the script plays for a changed [flags] value, when the value is
    in one of its tables. *)
Definition flags_note (flags : Z) : option Z :=
  match kpod.TAP_NOTE_MAP !! flags, kpod.HOLD_NOTE_MAP !! flags with
  | Some note, _ => Some note
  | None, Some note => Some note
  | None, None => None
  end.

(** A program all of whose runs send adjacent Note-On/Note-Off pairs only;
    [sent] reads the MIDI messages off a trace. *)
Definition pairs_only {St Ev A} (sent : list Ev -> list (list Z))
    (m : prog St Ev A) : Prop :=
  forall s, paired (sent (trace_of (m s))).

(** A GUI bridge with its MIDI port open and the rocker tracked at [p]. *)
Definition connected_at (p : string) : gui_main.KPODBridgeGUI :=
  {| gui_main.midi_out := Some 0%nat; gui_main.current_rocker := p |}.

(** A response the decoder rejects: no response, a length other than 8, or
    a first byte that is not the echo of the update command. *)
Definition malformed (response : option (list byte)) : Prop :=
  match response with
  | None => True
  | Some r => length r <> 8%nat \/ r !! 0%nat <> Some x75
  end.

(** The rocker position after each cycle of the GUI worker. *)
Fixpoint positions (responses : list (option (list byte)))
    (self : gui_main.KPODBridgeGUI) : list string :=
  match responses with
  | [] => []
  | response :: rest =>
      let self' := state_of (gui_main.poll_cycle response self) in
      gui_main.current_rocker self' :: positions rest self'
  end.

(** ** kpodalt.py *)

Module kpodalt.

Definition TAP_NOTE_MAP : gmap Z Z :=
  list_to_map [(0x41, 64); (0x42, 65); (0x43, 66); (0x44, 67);
               (0x45, 68); (0x46, 69); (0x47, 70); (0x48, 71)].

Definition HOLD_NOTE_MAP : gmap Z Z :=
  list_to_map [(0x51, 72); (0x52, 73); (0x53, 74); (0x54, 75);
               (0x55, 76); (0x56, 77); (0x57, 78); (0x58, 79)].

Definition ENCODER_CW_NOTE : Z := 100.
Definition ENCODER_CCW_NOTE : Z := 101.

(** The one local of [main] that lives across iterations. *)
Record locals : Type := { last_flags : Z }.

Definition init : locals := {| last_flags := 0 |}.

Definition send_note (note velocity : Z) : prog locals (list Z) unit :=
  emit [0x90; note; velocity] ;;
  emit [0x80; note; 0].

(** [# --- Encoder Turned ---] *)
Definition send_ticks (ticks : Z) : prog locals (list Z) unit :=
  if 0 <? ticks then for_range (Z.to_nat ticks) (send_note ENCODER_CW_NOTE 127)
  else if ticks <? 0 then
    for_range (Z.to_nat (Z.abs ticks)) (send_note ENCODER_CCW_NOTE 127)
  else mret tt.

(** [# --- Buttons ---]; [last_flags = flags] follows the [if]. *)
Definition detect_buttons (flags : Z) : prog locals (list Z) unit :=
  st ← get_state;
  (if negb (flags =? last_flags st) then
     match TAP_NOTE_MAP !! flags, HOLD_NOTE_MAP !! flags with
     | Some note, _ => send_note note 127
     | None, Some note => send_note note 127
     | None, None => mret tt
     end
   else mret tt) ;;
  put_state {| last_flags := flags |}.

Definition poll_cycle (response : option (list byte))
  : prog locals (list Z) unit :=
  match response with
  | Some [_; r1; r2; r3; _; _; _; _] =>    (* response and len(response) == 8 *)
      let ticks := unpack_h r1 r2 in
      let flags := byte_to_Z r3 in
      send_ticks ticks ;;
      detect_buttons flags
  | _ => mret tt
  end.

Fixpoint main (responses : list (option (list byte)))
  : prog locals (list Z) unit :=
  match responses with
  | [] => mret tt
  | response :: rest => poll_cycle response ;; main rest
  end.

End kpodalt.

(** ** The search for the MIDI port *)

(** [needle in hay] on Python strings. *)
Definition contains (needle hay : string) : bool :=
  match index 0 needle hay with
  | Some _ => true
  | None => false
  end.

(** [next((i for i, p in enumerate(ports) if "IAC" in p), None)], the
    enumeration being at [i] on [ports]. *)
Fixpoint iac_port_from (i : nat) (ports : list string) : option nat :=
  match ports with
  | [] => None
  | p :: rest => if contains "IAC" p then Some i else iac_port_from (S i) rest
  end.

Definition iac_port_index (ports : list string) : option nat :=
  iac_port_from 0 ports.

(** ** Observations on a trace of the GUI worker *)

(** The actions that reached the log. *)
Definition actions (t : list gui_main.effect) : list gui_main.action :=
  flat_map (fun e => match e with gui_main.log_action a => [a] | _ => [] end) t.

(** The positions given to [update_rocker_display]. *)
Definition displays (t : list gui_main.effect) : list string :=
  flat_map (fun e => match e with gui_main.rocker_display p => [p] | _ => [] end) t.

(** The trace without the calls on the MIDI port. *)
Definition non_midi (t : list gui_main.effect) : list gui_main.effect :=
  flat_map (fun e => match e with gui_main.send_message _ => [] | _ => [e] end) t.

(** The note an action reports. *)
Definition action_note (a : gui_main.action) : Z :=
  match a with
  | gui_main.RockerAction _ note => note
  | gui_main.EncoderCW note _ => note
  | gui_main.EncoderCCW note _ => note
  | gui_main.ButtonAction _ _ note => note
  end.

(** The bridge with MIDI port [port] and the rocker tracked at [position]. *)
Definition bridge (port : option nat) (position : string) : gui_main.KPODBridgeGUI :=
  {| gui_main.midi_out := port; gui_main.current_rocker := position |}.

Definition is_open (port : option nat) : bool :=
  match port with Some _ => true | None => false end.

(** The positions of the logged rocker actions. *)
Definition rocker_logged (t : list gui_main.effect) : list string :=
  flat_map (fun e =>
    match e with
    | gui_main.log_action (gui_main.RockerAction p _) => [p]
    | _ => []
    end) t.

(** What the worker logs: a rocker action carries the note of its position,
    an encoder action one of the four encoder notes on the side of its
    direction, a button action a button number in 1..4 and a note in the
    range of its mode. *)
Definition action_ok (a : gui_main.action) : Prop :=
  match a with
  | gui_main.RockerAction p note =>
      gui_main.ROCKER_POSITION_NOTES !! p = Some note
  | gui_main.EncoderCW note p =>
      note = (if (p =? "XIT/RIT")%string then 102 else 100)
  | gui_main.EncoderCCW note p =>
      note = (if (p =? "XIT/RIT")%string then 103 else 101)
  | gui_main.ButtonAction mode button_num note =>
      1 <= button_num <= 4 /\
      match mode with
      | gui_main.TAP => 64 <= note <= 71
      | gui_main.HOLD => 72 <= note <= 79
      end
  end.

(** The entries of [ps] that differ from the entry before, [p0] being
    before the first. *)
Fixpoint changes (p0 : string) (ps : list string) : list string :=
  match ps with
  | [] => []
  | p :: rest => (if (p =? p0)%string then [] else [p]) ++ changes p rest
  end.

(** A stream of Note-On/Note-Off pairs at velocity 127 whose notes all
    satisfy [P]. *)
Inductive note_stream (P : Z -> Prop) : list (list Z) -> Prop :=
| note_stream_nil : note_stream P []
| note_stream_cons note rest :
    P note -> note_stream P rest ->
    note_stream P ([0x90; note; 127] :: [0x80; note; 0] :: rest).

(** The notes of the GUI bridge and of the script. *)
Definition gui_note (n : Z) : Prop :=
  64 <= n <= 79 \/ 100 <= n <= 103 \/ 110 <= n <= 112.
Definition script_note (n : Z) : Prop :=
  64 <= n <= 79 \/ 100 <= n <= 105.

(** Whether [self.midi_out] is set. *)
Definition port_open (self : gui_main.KPODBridgeGUI) : bool :=
  match gui_main.midi_out self with Some _ => true | None => false end.

(** What one [send_note(note)] call of [self] gives the MIDI port. *)
Definition note_sends (self : gui_main.KPODBridgeGUI) (note : Z)
  : list gui_main.effect :=
  if port_open self
  then [gui_main.send_message [0x90; note; 127]; gui_main.send_message [0x80; note; 0]]
  else [].

(** The trace rebuilt from its part without MIDI calls: with a port open,
    the Note-On/Note-Off pair of the note of each logged action comes just
    before the action. *)
Definition play (open : bool) (t : list gui_main.effect) : list gui_main.effect :=
  flat_map (fun e =>
    match e with
    | gui_main.send_message _ => []
    | gui_main.log_action a =>
        (if open
         then [gui_main.send_message [0x90; action_note a; 127];
               gui_main.send_message [0x80; action_note a; 0]]
         else []) ++ [e]
    | gui_main.rocker_display _ => [e]
    end) t.

(** The note of a position change. *)
Definition rocker_note (position : string) : Z :=
  default 0 (gui_main.ROCKER_POSITION_NOTES !! position).

(** [L] is a log of the worker for a run that starts at position [cur] and
    passes through the positions [ps]: it holds no MIDI call, it shows the
    display exactly at the changes of position, each with its rocker action,
    and all its actions are as the worker logs them. *)
Definition worker_log (cur : string) (ps : list string)
    (L : list gui_main.effect) : Prop :=
  non_midi L = L
  /\ displays L = changes cur ps
  /\ rocker_logged L = displays L
  /\ Forall action_ok (actions L).

(** The names of the three positions the detector can return. *)
Definition detected (p : string) : Prop :=
  (p = "VFO A" \/ p = "XIT/RIT" \/ p = "VFO B")%string.

(** The encoder notes of the script for a control byte: rocker left, else
    rocker right, else center. *)
Definition script_encoder_notes (flags : Z) : Z * Z :=
  if negb (Z.land flags 0x40 =? 0) then (100, 101)
  else if negb (Z.land flags 0x20 =? 0) then (104, 105)
  else (102, 103).

Definition script_encoder_note (flags ticks : Z) : Z :=
  if 0 <? ticks then fst (script_encoder_notes flags)
  else snd (script_encoder_notes flags).

(** The button pair the scripts send on [flags] after [last]. *)
Definition script_button_part (flags last : Z) : list (list Z) :=
  if flags =? last then []
  else match flags_note flags with
       | Some note => note_pair note 127
       | None => []
       end.

(** A report with the rocker held left (bit 6 of the control byte set), or
    a response the scripts skip. *)
Definition rocker_left (response : option (list byte)) : Prop :=
  match response with
  | Some [_; _; _; r3; _; _; _; _] => Z.land (byte_to_Z r3) 0x40 <> 0
  | _ => True
  end.

(** A response the GUI worker processes: 8 bytes, the first the echo of the
    update command. *)
Definition well_formed (response : option (list byte)) : bool :=
  match response with
  | Some [r0; _; _; _; _; _; _; _] => byte_to_Z r0 =? gui_main.KPOD_USB_CMD_UPDATE
  | _ => false
  end.

(** ** The monad *)

Section ProgFacts.
Context {St Ev : Type}.

Lemma run_eta {A} (r : A * St * list Ev) :
  (result r, state_of r, trace_of r) = r.
Proof. destruct r as [[a s] t]; reflexivity. Qed.

Lemma bind_run {A B} (m : prog St Ev A) (k : A -> prog St Ev B) s :
  (m ≫= k) s =
  (result (k (result (m s)) (state_of (m s))),
   state_of (k (result (m s)) (state_of (m s))),
   trace_of (m s) ++ trace_of (k (result (m s)) (state_of (m s)))).
Proof. reflexivity. Qed.

Lemma bind_trace {A B} (m : prog St Ev A) (k : A -> prog St Ev B) s :
  trace_of ((m ≫= k) s) =
  trace_of (m s) ++ trace_of (k (result (m s)) (state_of (m s))).
Proof. reflexivity. Qed.

Lemma bind_state {A B} (m : prog St Ev A) (k : A -> prog St Ev B) s :
  state_of ((m ≫= k) s) = state_of (k (result (m s)) (state_of (m s))).
Proof. reflexivity. Qed.

(** A step that does nothing can be dropped from a sequence. *)
Lemma bind_skip {B} (m : prog St Ev unit) (k : prog St Ev B) s :
  m s = (tt, s, []) -> (m ;; k) s = k s.
Proof.
  intros Hm. rewrite bind_run, Hm. cbn [result state_of trace_of fst snd app].
  apply run_eta.
Qed.

(** A loop whose body leaves the state alone repeats the body's trace. *)
Lemma for_range_run (n : nat) (body : prog St Ev unit) s t :
  body s = (tt, s, t) ->
  for_range n body s = (tt, s, concat (replicate n t)).
Proof.
  intros Hbody. induction n as [|n IH]; [reflexivity|].
  cbn [for_range]. rewrite bind_run, Hbody.
  cbn [result state_of trace_of fst snd]. rewrite IH. reflexivity.
Qed.
End ProgFacts.

(** ** The stages of the GUI worker *)

Section GuiStages.
Import gui_main.

Lemma midi_sent_app t1 t2 : midi_sent (t1 ++ t2) = midi_sent t1 ++ midi_sent t2.
Proof. unfold midi_sent. apply flat_map_app. Qed.

Lemma send_note_run note velocity self :
  send_note note velocity self =
  (tt, self,
   match midi_out self with
   | Some _ => [send_message (note_on note velocity); send_message (note_off note)]
   | None => []
   end).
Proof. unfold send_note. rewrite bind_run. cbn. destruct (midi_out self); reflexivity. Qed.

Lemma midi_sent_pairs k note (a : action) :
  midi_sent (concat (replicate k
    [send_message (note_on note 127); send_message (note_off note); log_action a]))
  = note_pairs k note.
Proof.
  induction k as [|k IH]; [reflexivity|].
  cbn [replicate concat note_pairs]. rewrite midi_sent_app, IH. reflexivity.
Qed.

Lemma handle_encoder_state ticks self : state_of (handle_encoder ticks self) = self.
Proof.
  unfold handle_encoder. rewrite bind_state. cbn [get_state result state_of fst snd].
  destruct (get_encoder_notes self) as [cw ccw].
  destruct (0 <? ticks); [|destruct (ticks <? 0); [|reflexivity]].
  - erewrite for_range_run; [reflexivity|].
    rewrite bind_run, send_note_run. reflexivity.
  - erewrite for_range_run; [reflexivity|].
    rewrite bind_run, send_note_run. reflexivity.
Qed.

Lemma handle_encoder_midi ticks self port :
  midi_out self = Some port ->
  midi_sent (trace_of (handle_encoder ticks self)) =
  note_pairs (Z.to_nat (Z.abs ticks)) (encoder_note self ticks).
Proof.
  intros Hport. unfold handle_encoder, encoder_note. rewrite bind_trace.
  cbn [get_state result state_of trace_of fst snd app].
  destruct (get_encoder_notes self) as [cw ccw]. cbn [fst snd].
  destruct (Z.ltb_spec 0 ticks) as [Hpos|Hnpos].
  - erewrite for_range_run
      by (rewrite bind_run, send_note_run, Hport; reflexivity).
    cbn [trace_of snd app]. rewrite Z.abs_eq by lia. apply midi_sent_pairs.
  - destruct (Z.ltb_spec ticks 0) as [Hneg|Hzero].
    + erewrite for_range_run
        by (rewrite bind_run, send_note_run, Hport; reflexivity).
      cbn [trace_of snd app]. apply midi_sent_pairs.
    + replace ticks with 0 by lia. reflexivity.
Qed.

Lemma detect_range controls a self p :
  detect_rocker_position_from_event controls a self = Some p ->
  p = "VFO A"%string \/ p = "XIT/RIT"%string \/ p = "VFO B"%string.
Proof.
  unfold detect_rocker_position_from_event.
  repeat match goal with |- context [if ?b then _ else _] => destruct b end;
    intros H; inversion H; auto.
Qed.

Lemma handle_rocker_run controls a self :
  handle_rocker controls a self =
  match detect_rocker_position_from_event controls a self with
  | Some p =>
      if (p =? current_rocker self)%string then (tt, self, [])
      else (tt, {| midi_out := midi_out self; current_rocker := p |},
            trace_of (send_rocker_position_change p self) ++ [rocker_display p])
  | None => (tt, self, [])
  end.
Proof.
  unfold handle_rocker. rewrite bind_run. cbn [get_state result state_of trace_of fst snd app].
  destruct (detect_rocker_position_from_event controls a self) as [p|] eqn:Hd;
    [|reflexivity].
  destruct (p =? current_rocker self)%string; [reflexivity|].
  cbn [negb]. rewrite !bind_run.
  assert (Hs : state_of (send_rocker_position_change p self) = self).
  { unfold send_rocker_position_change.
    destruct (ROCKER_POSITION_NOTES !! p); [|reflexivity].
    rewrite !bind_state, send_note_run. reflexivity. }
  rewrite Hs. reflexivity.
Qed.

Lemma rocker_change_midi p self port note :
  midi_out self = Some port ->
  ROCKER_POSITION_NOTES !! p = Some note ->
  midi_sent (trace_of (send_rocker_position_change p self) ++ [rocker_display p])
  = note_pair note 127.
Proof.
  intros Hport Hnote. unfold send_rocker_position_change. rewrite Hnote.
  rewrite !bind_trace, send_note_run, Hport. reflexivity.
Qed.
End GuiStages.

(** ** Proof by cases over a nibble *)

(** Split on the values [0 .. n-1] of the integer [x]. *)
Ltac small_cases x n :=
  match n with
  | O => lia
  | S ?n' =>
      let H := fresh in
      let v := eval vm_compute in (Z.of_nat n') in
      destruct (Z.eq_dec x v) as [H|H];
      [ subst x; try (exfalso; lia) | small_cases x n' ]
  end.

(** Replace the lookups of the note tables at known keys by their values. *)
Ltac eval_lookups :=
  repeat match goal with
  | |- context [gui_main.TAP_NOTE_MAP !! ?k] =>
      let v := eval vm_compute in (gui_main.TAP_NOTE_MAP !! k) in
      change (gui_main.TAP_NOTE_MAP !! k) with v
  | |- context [gui_main.HOLD_NOTE_MAP !! ?k] =>
      let v := eval vm_compute in (gui_main.HOLD_NOTE_MAP !! k) in
      change (gui_main.HOLD_NOTE_MAP !! k) with v
  end.

(** [lowest_set_bit b i] for numerals [b] and [i < 4]. *)
Ltac lowest_bit_tac :=
  split; [lia | split; [reflexivity |]];
  let j := fresh "j" in let Hj := fresh "Hj" in
  intros j Hj; small_cases j 4%nat; first [reflexivity | lia].

(** ** Buttons *)

Section GuiButtons.
Import gui_main.

Lemma land_15_range c : 0 <= Z.land c 0x0F < 16.
Proof.
  change 0x0F with (Z.ones 4). rewrite Z.land_ones by lia.
  apply Z.mod_pos_bound. lia.
Qed.

(** The loop stops at the lowest set bit of the button nibble. *)
Lemma find_button_run mode bb self :
  0 < bb < 16 ->
  exists i, 0 <= i < 4 /\ lowest_set_bit bb i /\
    find_button mode bb [0; 1; 2; 3; 4; 5; 6; 7] self = press_button mode bb i self.
Proof.
  intros Hbb.
  small_cases bb 16%nat;
    match goal with
    | |- exists i, _ /\ lowest_set_bit ?b i /\ _ =>
        let v := eval vm_compute in (Z.log2 (Z.land b (- b))) in exists v
    end;
    (split; [lia | split; [lowest_bit_tac | reflexivity]]).
Qed.

Lemma press_button_run mode bb i self :
  press_button mode bb i self =
  (tt, self,
   match midi_out self with
   | Some _ => [send_message (note_on (button_note mode bb i) 127);
                send_message (note_off (button_note mode bb i))]
   | None => []
   end ++ [log_action (ButtonAction mode (i + 1) (button_note mode bb i))]).
Proof. unfold press_button. rewrite bind_run, send_note_run. reflexivity. Qed.

Lemma handle_buttons_idle controls self :
  Z.land controls 0x0F = 0 -> handle_buttons controls self = (tt, self, []).
Proof. intros H. unfold handle_buttons. rewrite H. reflexivity. Qed.

Lemma handle_buttons_run controls self :
  Z.land controls 0x0F <> 0 ->
  exists i, 0 <= i < 4 /\ lowest_set_bit (Z.land controls 0x0F) i /\
    handle_buttons controls self =
    press_button (tap_hold_of controls) (Z.land controls 0x0F) i self.
Proof.
  intros Hne. unfold handle_buttons.
  destruct (Z.eqb_spec (Z.land controls 0x0F) 0) as [|_]; [contradiction|].
  apply find_button_run. pose proof (land_15_range controls). lia.
Qed.

Lemma handle_buttons_state controls self :
  state_of (handle_buttons controls self) = self.
Proof.
  destruct (Z.eq_dec (Z.land controls 0x0F) 0) as [H0|Hne].
  - rewrite handle_buttons_idle by assumption. reflexivity.
  - destruct (handle_buttons_run controls self Hne) as (i & _ & _ & ->).
    rewrite press_button_run. reflexivity.
Qed.

(** Every note of the button stage lies in 64..79. *)
Lemma button_note_range mode bb i :
  0 < bb < 16 -> 0 <= i < 4 -> 64 <= button_note mode bb i <= 79.
Proof.
  intros Hbb Hi. unfold button_note.
  small_cases bb 16%nat; eval_lookups; destruct mode; lia.
Qed.
End GuiButtons.

(** ** Note classes of a stream *)

Section NoteClasses.
Variables lo hi : Z.

Lemma msgs_in_app s1 s2 : msgs_in lo hi (s1 ++ s2) = msgs_in lo hi s1 ++ msgs_in lo hi s2.
Proof. unfold msgs_in. apply filter_app. Qed.

Lemma msgs_in_pair_inside note velocity :
  lo <= note <= hi -> msgs_in lo hi (note_pair note velocity) = note_pair note velocity.
Proof.
  intros Hn. unfold msgs_in, note_pair, note_on, note_off.
  assert (Hin : forall a b, Is_true (note_in lo hi [a; note; b])).
  { intros a b. cbn. apply Is_true_true. apply andb_true_iff. split; lia. }
  rewrite !filter_cons_True by apply Hin. reflexivity.
Qed.

Lemma msgs_in_pair_outside note velocity :
  ~ lo <= note <= hi -> msgs_in lo hi (note_pair note velocity) = [].
Proof.
  intros Hn. unfold msgs_in, note_pair, note_on, note_off.
  assert (Hout : forall a b, ~ Is_true (note_in lo hi [a; note; b])).
  { intros a b H. cbn in H. apply Is_true_true, andb_true_iff in H. lia. }
  rewrite !filter_cons_False by apply Hout. reflexivity.
Qed.

Lemma msgs_in_pairs_inside k note :
  lo <= note <= hi -> msgs_in lo hi (note_pairs k note) = note_pairs k note.
Proof.
  intros Hn. induction k as [|k IH]; [reflexivity|].
  cbn [note_pairs]. rewrite msgs_in_app, msgs_in_pair_inside, IH by assumption.
  reflexivity.
Qed.

Lemma msgs_in_pairs_outside k note :
  ~ lo <= note <= hi -> msgs_in lo hi (note_pairs k note) = [].
Proof.
  intros Hn. induction k as [|k IH]; [reflexivity|].
  cbn [note_pairs]. rewrite msgs_in_app, msgs_in_pair_outside, IH by assumption.
  reflexivity.
Qed.
End NoteClasses.

(** ** One cycle of the GUI worker *)

Section GuiCycle.
Import gui_main.

Lemma poll_cycle_run r1 r2 r3 r4 r5 r6 r7 self :
  let ticks := unpack_h r1 r2 in
  let controls := byte_to_Z r3 in
  let rk := handle_rocker controls (has_activity_of ticks controls) self in
  poll_cycle (Some [x75; r1; r2; r3; r4; r5; r6; r7]) self =
  (tt, state_of rk,
   trace_of rk ++ trace_of (handle_encoder ticks (state_of rk))
               ++ trace_of (handle_buttons controls (state_of rk))).
Proof.
  intros ticks controls rk. unfold poll_cycle.
  change (byte_to_Z x75 =? KPOD_USB_CMD_UPDATE) with true. cbv iota.
  fold ticks controls. rewrite !bind_run.
  fold rk. rewrite handle_encoder_state, handle_buttons_state.
  destruct (result _). reflexivity.
Qed.

Lemma handle_rocker_midi_out controls a self :
  midi_out (state_of (handle_rocker controls a self)) = midi_out self.
Proof.
  rewrite handle_rocker_run.
  destruct (detect_rocker_position_from_event controls a self) as [p|];
    [destruct (p =? current_rocker self)%string|]; reflexivity.
Qed.

(** The rocker stage sends nothing and keeps the position, or moves to a
    different position and sends that position's note once. *)
Lemma handle_rocker_midi controls a self port :
  midi_out self = Some port ->
  let rk := handle_rocker controls a self in
  (midi_sent (trace_of rk) = [] /\
   current_rocker (state_of rk) = current_rocker self)
  \/ (exists note,
        ROCKER_POSITION_NOTES !! current_rocker (state_of rk) = Some note /\
        110 <= note <= 112 /\
        current_rocker (state_of rk) <> current_rocker self /\
        detect_rocker_position_from_event controls a self
          = Some (current_rocker (state_of rk)) /\
        midi_sent (trace_of rk) = note_pair note 127).
Proof.
  intros Hport rk. subst rk. rewrite handle_rocker_run.
  destruct (detect_rocker_position_from_event controls a self) as [p|] eqn:Hd;
    [|left; split; reflexivity].
  destruct (String.eqb_spec p (current_rocker self)) as [Heq|Hne];
    [left; split; reflexivity|].
  right. cbn [state_of trace_of fst snd current_rocker].
  destruct (detect_range _ _ _ _ Hd) as [->|[->| ->]];
    [exists 110 | exists 112 | exists 111];
    (split; [reflexivity | split; [lia | split; [assumption | split; [reflexivity|]]]]);
    eapply rocker_change_midi; [eassumption | reflexivity | eassumption | reflexivity
                               | eassumption | reflexivity].
Qed.
End GuiCycle.

Section GuiCycleMidi.
Import gui_main.

Lemma handle_buttons_midi controls self port :
  midi_out self = Some port ->
  (Z.land controls 0x0F = 0 /\
   midi_sent (trace_of (handle_buttons controls self)) = [])
  \/ (Z.land controls 0x0F <> 0 /\
      exists i, lowest_set_bit (Z.land controls 0x0F) i /\
        64 <= button_note (tap_hold_of controls) (Z.land controls 0x0F) i <= 79 /\
        midi_sent (trace_of (handle_buttons controls self)) =
        note_pair (button_note (tap_hold_of controls) (Z.land controls 0x0F) i) 127).
Proof.
  intros Hport. destruct (Z.eq_dec (Z.land controls 0x0F) 0) as [H0|Hne].
  - left. split; [assumption|]. rewrite handle_buttons_idle by assumption. reflexivity.
  - right. split; [assumption|].
    destruct (handle_buttons_run controls self Hne) as (i & Hi & Hlow & ->).
    exists i. split; [assumption|]. split.
    + apply button_note_range; [|assumption].
      pose proof (land_15_range controls). lia.
    + rewrite press_button_run, Hport. reflexivity.
Qed.

(** The MIDI stream of a cycle whose report echoes the update command is
    the stream of the rocker stage, then the tick pairs on the note of the
    position the rocker stage left, then the stream of the button stage. *)
Lemma poll_cycle_midi r1 r2 r3 r4 r5 r6 r7 self port :
  midi_out self = Some port ->
  let ticks := unpack_h r1 r2 in
  let controls := byte_to_Z r3 in
  let rk := handle_rocker controls (has_activity_of ticks controls) self in
  let run := poll_cycle (Some [x75; r1; r2; r3; r4; r5; r6; r7]) self in
  state_of run = state_of rk /\
  midi_sent (trace_of run) =
    midi_sent (trace_of rk)
    ++ note_pairs (Z.to_nat (Z.abs ticks)) (encoder_note (state_of run) ticks)
    ++ midi_sent (trace_of (handle_buttons controls (state_of run))).
Proof.
  intros Hport ticks controls rk run. subst run.
  rewrite poll_cycle_run. fold ticks controls rk.
  cbn [state_of trace_of fst snd]. split; [reflexivity|].
  rewrite !midi_sent_app. f_equal. f_equal.
  apply handle_encoder_midi with (port := port).
  subst rk. rewrite handle_rocker_midi_out. assumption.
Qed.

Lemma poll_cycle_midi_out response self :
  midi_out (state_of (poll_cycle response self)) = midi_out self.
Proof.
  destruct response as [[|r0 [|r1 [|r2 [|r3 [|r4 [|r5 [|r6 [|r7 [|r8 r]]]]]]]]]|];
    try reflexivity.
  unfold poll_cycle. destruct (byte_to_Z r0 =? KPOD_USB_CMD_UPDATE); [|reflexivity].
  rewrite !bind_state, handle_buttons_state, handle_encoder_state.
  apply handle_rocker_midi_out.
Qed.
End GuiCycleMidi.

Lemma byte_to_Z_range b : 0 <= byte_to_Z b < 256.
Proof. unfold byte_to_Z. pose proof (Byte.to_N_bounded b). lia. Qed.

Lemma byte_to_Z_inj b1 b2 : byte_to_Z b1 = byte_to_Z b2 -> b1 = b2.
Proof.
  unfold byte_to_Z. intros H. apply N2Z.inj in H.
  pose proof (Byte.of_to_N b1) as H1. rewrite H, Byte.of_to_N in H1. congruence.
Qed.

Lemma encoder_note_range self ticks : 100 <= encoder_note self ticks <= 103.
Proof.
  unfold encoder_note, gui_main.get_encoder_notes.
  destruct (gui_main.current_rocker self =? "XIT/RIT")%string;
    destruct (0 <? ticks); vm_compute; split; congruence.
Qed.

(** The three parts of a cycle's MIDI stream and their note classes. *)
Lemma poll_cycle_parts r1 r2 r3 r4 r5 r6 r7 self port :
  gui_main.midi_out self = Some port ->
  let ticks := unpack_h r1 r2 in
  let run := gui_main.poll_cycle (Some [x75; r1; r2; r3; r4; r5; r6; r7]) self in
  exists rocker_part button_part,
    gui_main.midi_sent (trace_of run) =
      rocker_part
      ++ note_pairs (Z.to_nat (Z.abs ticks)) (encoder_note (state_of run) ticks)
      ++ button_part
    /\ (rocker_part = [] \/
        exists note, 110 <= note <= 112 /\ rocker_part = note_pair note 127)
    /\ (button_part = [] \/
        exists note, 64 <= note <= 79 /\ button_part = note_pair note 127).
Proof.
  intros Hport ticks run.
  destruct (poll_cycle_midi r1 r2 r3 r4 r5 r6 r7 self port Hport) as [Hst Hmidi].
  fold ticks run in Hst, Hmidi.
  eexists _, _. split; [exact Hmidi|]. split.
  - destruct (handle_rocker_midi (byte_to_Z r3)
                (gui_main.has_activity_of ticks (byte_to_Z r3)) self port Hport)
      as [[Hnil _]|(note & _ & Hrange & _ & _ & Hpair)].
    + left. assumption.
    + right. exists note. split; assumption.
  - assert (Hport' : gui_main.midi_out (state_of run) = Some port).
    { subst run. rewrite poll_cycle_midi_out. assumption. }
    destruct (handle_buttons_midi (byte_to_Z r3) (state_of run) port Hport')
      as [[_ Hnil]|(_ & i & _ & Hrange & Hpair)].
    + left. assumption.
    + right. eexists. split; eassumption.
Qed.

(** The messages of a cycle by note class: the encoder class holds the tick
    pairs, the rocker class the rocker stage, the button class the button
    stage. *)
Lemma poll_cycle_encoder_msgs r1 r2 r3 r4 r5 r6 r7 self port :
  gui_main.midi_out self = Some port ->
  let ticks := unpack_h r1 r2 in
  let run := gui_main.poll_cycle (Some [x75; r1; r2; r3; r4; r5; r6; r7]) self in
  encoder_msgs (gui_main.midi_sent (trace_of run)) =
  note_pairs (Z.to_nat (Z.abs ticks)) (encoder_note (state_of run) ticks).
Proof.
  intros Hport ticks run.
  destruct (poll_cycle_parts r1 r2 r3 r4 r5 r6 r7 self port Hport)
    as (rocker_part & button_part & Hmidi & Hrk & Hbt).
  fold ticks run in Hmidi. rewrite Hmidi. unfold encoder_msgs. rewrite !msgs_in_app.
  replace (msgs_in 100 105 rocker_part) with (@nil (list Z)).
  2:{ destruct Hrk as [->|(note & Hnote & ->)]; [reflexivity|].
      symmetry. apply msgs_in_pair_outside. lia. }
  replace (msgs_in 100 105 button_part) with (@nil (list Z)).
  2:{ destruct Hbt as [->|(note & Hnote & ->)]; [reflexivity|].
      symmetry. apply msgs_in_pair_outside. lia. }
  rewrite app_nil_r. cbn [app]. apply msgs_in_pairs_inside.
  pose proof (encoder_note_range (state_of run) ticks). lia.
Qed.

Lemma poll_cycle_class_msgs lo hi r1 r2 r3 r4 r5 r6 r7 self port :
  gui_main.midi_out self = Some port ->
  (lo = 64 /\ hi = 79) \/ (lo = 110 /\ hi = 112) ->
  let ticks := unpack_h r1 r2 in
  let controls := byte_to_Z r3 in
  let rk := gui_main.handle_rocker controls
              (gui_main.has_activity_of ticks controls) self in
  msgs_in lo hi (gui_main.midi_sent
    (trace_of (gui_main.poll_cycle (Some [x75; r1; r2; r3; r4; r5; r6; r7]) self)))
  = msgs_in lo hi (gui_main.midi_sent (trace_of rk))
    ++ msgs_in lo hi (gui_main.midi_sent
         (trace_of (gui_main.handle_buttons controls (state_of rk)))).
Proof.
  intros Hport Hclass ticks controls rk.
  destruct (poll_cycle_midi r1 r2 r3 r4 r5 r6 r7 self port Hport) as [Hst Hmidi].
  fold ticks controls rk in Hst, Hmidi. rewrite Hmidi, Hst, !msgs_in_app.
  rewrite msgs_in_pairs_outside; [reflexivity|].
  pose proof (encoder_note_range (state_of rk) ticks). lia.
Qed.

(** ** One cycle of the GUI worker: order, fan-out, rejected responses *)

(** C6. With a MIDI port open, the MIDI stream of a poll cycle on a report
    echoing the update command is the position-change pair (none when the
    position stays, else one pair on the note of the new position), then
    [abs ticks] encoder pairs on the note of the position as updated in this
    cycle, then the button pair (none, or one pair on a note in 64..79).
    In particular, from VFO A a report with rocker bits 01, tick delta +1
    and no button bit sends exactly the pair of note 112 then one pair of
    note 102. *)
Theorem C6_cycle_order r1 r2 r3 r4 r5 r6 r7 self port :
  gui_main.midi_out self = Some port ->
  let ticks := unpack_h r1 r2 in
  let controls := byte_to_Z r3 in
  let run := gui_main.poll_cycle (Some [x75; r1; r2; r3; r4; r5; r6; r7]) self in
  let self' := state_of run in
  (exists rocker_part button_part,
     gui_main.midi_sent (trace_of run) =
       rocker_part
       ++ note_pairs (Z.to_nat (Z.abs ticks)) (encoder_note self' ticks)
       ++ button_part
     /\ (rocker_part = [] /\
         gui_main.current_rocker self' = gui_main.current_rocker self
         \/ exists note,
              gui_main.ROCKER_POSITION_NOTES !! gui_main.current_rocker self'
                = Some note /\
              gui_main.current_rocker self' <> gui_main.current_rocker self /\
              rocker_part = note_pair note 127)
     /\ (button_part = [] /\ Z.land controls 0x0F = 0
         \/ exists note,
              64 <= note <= 79 /\ Z.land controls 0x0F <> 0 /\
              button_part = note_pair note 127))
  /\ (gui_main.current_rocker self = "VFO A"%string ->
      Z.land (Z.shiftr controls 5) 0x03 = 1 ->
      Z.land controls 0x0F = 0 ->
      ticks = 1 ->
      gui_main.midi_sent (trace_of run) = note_pair 112 127 ++ note_pair 102 127).
Proof.
  intros Hport ticks controls run self'.
  destruct (poll_cycle_midi r1 r2 r3 r4 r5 r6 r7 self port Hport) as [Hst Hmidi].
  fold ticks controls run in Hst, Hmidi. fold self' in Hst, Hmidi.
  pose proof (handle_rocker_midi controls (gui_main.has_activity_of ticks controls)
                self port Hport) as Hrk.
  cbv zeta in Hrk. rewrite <- Hst in Hrk.
  assert (Hport' : gui_main.midi_out self' = Some port).
  { subst self' run. rewrite poll_cycle_midi_out. assumption. }
  pose proof (handle_buttons_midi controls self' port Hport') as Hbt.
  split.
  - eexists _, _. split; [exact Hmidi|]. split.
    + destruct Hrk as [[Hnil Hsame]|(note & Hnote & _ & Hne & _ & Hpair)].
      * left. split; assumption.
      * right. exists note. repeat split; assumption.
    + destruct Hbt as [[H0 Hnil]|(Hne & i & _ & Hrange & Hpair)].
      * left. split; assumption.
      * right. eexists. repeat split; try eassumption; lia.
  - intros Hpos Hbits Hnobtn Hticks.
    destruct Hbt as [[_ Hnil]|[Hne _]]; [|contradiction].
    assert (Hd : gui_main.detect_rocker_position_from_event controls
                   (gui_main.has_activity_of ticks controls) self
                 = Some "XIT/RIT"%string).
    { unfold gui_main.detect_rocker_position_from_event. rewrite Hbits. reflexivity. }
    destruct Hrk as [[_ Hsame]|(note & Hnote & _ & _ & Hdet & Hpair)].
    + exfalso. revert Hsame. subst self'. rewrite Hst, handle_rocker_run, Hd, Hpos.
      cbn. discriminate.
    + rewrite Hd in Hdet. injection Hdet as Hdet.
      rewrite Hmidi, Hpair, Hnil, Hticks.
      unfold encoder_note, gui_main.get_encoder_notes. rewrite <- Hdet.
      rewrite <- Hdet in Hnote. vm_compute in Hnote. injection Hnote as <-.
      reflexivity.
Qed.

(** C6 at work: from VFO A, the report [u, 01 00, 0x20]. *)
Lemma C6_cycle_order_witness :
  gui_main.midi_sent
    (trace_of (gui_main.poll_cycle (report x75 x01 x00 x20)
                                   (connected_at "VFO A")))
  = [[0x90; 112; 127]; [0x80; 112; 0]; [0x90; 102; 127]; [0x80; 102; 0]].
Proof.
  apply (proj2 (C6_cycle_order x01 x00 x20 x00 x00 x00 x00
                  (connected_at "VFO A") 0%nat eq_refl));
    reflexivity.
Defined.

(** C7. With a MIDI port open, the messages of a cycle on the encoder notes
    are exactly [abs ticks] Note-On/Note-Off pairs, all on the one note
    chosen from the position current in the cycle and the sign of the signed
    16-bit tick delta.  In particular tick delta +3 at VFO A gives 3 pairs on
    note 100 and tick delta -2 at XIT/RIT gives 2 pairs on note 103. *)
Theorem C7_encoder_fan_out r1 r2 r3 r4 r5 r6 r7 self port :
  gui_main.midi_out self = Some port ->
  let ticks := unpack_h r1 r2 in
  let run := gui_main.poll_cycle (Some [x75; r1; r2; r3; r4; r5; r6; r7]) self in
  let self' := state_of run in
  - 32768 <= ticks < 32768
  /\ encoder_msgs (gui_main.midi_sent (trace_of run)) =
       note_pairs (Z.to_nat (Z.abs ticks)) (encoder_note self' ticks)
  /\ (ticks = 3 -> gui_main.current_rocker self' = "VFO A"%string ->
      encoder_msgs (gui_main.midi_sent (trace_of run)) = note_pairs 3 100)
  /\ (ticks = -2 -> gui_main.current_rocker self' = "XIT/RIT"%string ->
      encoder_msgs (gui_main.midi_sent (trace_of run)) = note_pairs 2 103).
Proof.
  intros Hport ticks run self'.
  assert (Hrange : - 32768 <= ticks < 32768).
  { subst ticks. unfold unpack_h.
    pose proof (byte_to_Z_range r1). pose proof (byte_to_Z_range r2).
    destruct (Z.ltb_spec (byte_to_Z r1 + 256 * byte_to_Z r2) 32768); lia. }
  assert (Henc : encoder_msgs (gui_main.midi_sent (trace_of run)) =
                 note_pairs (Z.to_nat (Z.abs ticks)) (encoder_note self' ticks)).
  { apply poll_cycle_encoder_msgs with (port := port). exact Hport. }
  split; [exact Hrange|]. split; [exact Henc|]. split.
  - intros Ht Hpos. rewrite Henc, Ht.
    unfold encoder_note, gui_main.get_encoder_notes. rewrite Hpos. reflexivity.
  - intros Ht Hpos. rewrite Henc, Ht.
    unfold encoder_note, gui_main.get_encoder_notes. rewrite Hpos. reflexivity.
Qed.

(** C7 at work: [u, 03 00, 0x40] at VFO A and [u, fe ff, 0x20] at
    XIT/RIT. *)
Lemma C7_encoder_fan_out_witness :
  encoder_msgs (gui_main.midi_sent (trace_of
    (gui_main.poll_cycle (report x75 x03 x00 x40) (connected_at "VFO A"))))
  = [[0x90; 100; 127]; [0x80; 100; 0]; [0x90; 100; 127]; [0x80; 100; 0];
     [0x90; 100; 127]; [0x80; 100; 0]]
  /\ encoder_msgs (gui_main.midi_sent (trace_of
    (gui_main.poll_cycle (report x75 xfe xff x20) (connected_at "XIT/RIT"))))
  = [[0x90; 103; 127]; [0x80; 103; 0]; [0x90; 103; 127]; [0x80; 103; 0]].
Proof.
  split.
  - apply (proj1 (proj2 (proj2 (C7_encoder_fan_out x03 x00 x40 x00 x00 x00 x00
                                  (connected_at "VFO A") 0%nat eq_refl))));
      reflexivity.
  - apply (proj2 (proj2 (proj2 (C7_encoder_fan_out xfe xff x20 x00 x00 x00 x00
                                  (connected_at "XIT/RIT") 0%nat eq_refl))));
      reflexivity.
Defined.

(** C10. With a MIDI port open, a cycle that resolves its encoder notes
    while the tracked position is UNKNOWN sends all [abs ticks] pairs, on
    note 100 clockwise and 101 counter-clockwise: the pair of VFO A and
    VFO B, not the pair of XIT/RIT. *)
Theorem C10_unknown_uses_vfo_pair r1 r2 r3 r4 r5 r6 r7 self port :
  gui_main.midi_out self = Some port ->
  let ticks := unpack_h r1 r2 in
  let run := gui_main.poll_cycle (Some [x75; r1; r2; r3; r4; r5; r6; r7]) self in
  let self' := state_of run in
  gui_main.current_rocker self' = "UNKNOWN"%string ->
  encoder_msgs (gui_main.midi_sent (trace_of run)) =
    note_pairs (Z.to_nat (Z.abs ticks)) (if 0 <? ticks then 100 else 101)
  /\ gui_main.get_encoder_notes self' = (100, 101)
  /\ gui_main.get_encoder_notes self' = gui_main.get_encoder_notes (connected_at "VFO A")
  /\ gui_main.get_encoder_notes self' = gui_main.get_encoder_notes (connected_at "VFO B")
  /\ gui_main.get_encoder_notes self' <> gui_main.get_encoder_notes (connected_at "XIT/RIT").
Proof.
  intros Hport ticks run self' Hpos.
  assert (Hnotes : gui_main.get_encoder_notes self' = (100, 101)).
  { unfold gui_main.get_encoder_notes. rewrite Hpos. reflexivity. }
  split; [|rewrite Hnotes; repeat split; discriminate].
  pose proof (poll_cycle_encoder_msgs r1 r2 r3 r4 r5 r6 r7 self port Hport) as Henc.
  cbv zeta in Henc. fold ticks run in Henc. fold self' in Henc.
  rewrite Henc. unfold encoder_note. rewrite Hnotes.
  destruct (0 <? ticks); reflexivity.
Qed.

(** C10 at work: from the initial state, the report [u, 02 00, 0x01]
    leaves the position UNKNOWN. *)
Lemma C10_unknown_uses_vfo_pair_witness :
  gui_main.current_rocker (state_of
    (gui_main.poll_cycle (report x75 x02 x00 x01)
                         (gui_main.init (Some 0%nat)))) = "UNKNOWN"%string
  /\ encoder_msgs (gui_main.midi_sent (trace_of
       (gui_main.poll_cycle (report x75 x02 x00 x01)
                            (gui_main.init (Some 0%nat)))))
     = [[0x90; 100; 127]; [0x80; 100; 0]; [0x90; 100; 127]; [0x80; 100; 0]].
Proof.
  split; [reflexivity|].
  apply (proj1 (C10_unknown_uses_vfo_pair x02 x00 x01 x00 x00 x00 x00
                  (gui_main.init (Some 0%nat)) 0%nat eq_refl eq_refl)).
Defined.

(** C8. A cycle of the GUI worker whose response is missing, has a length
    other than 8, or does not start with the echo 0x75 of the update command
    sends nothing, logs nothing and leaves the whole bridge state as it was
    (the GUI worker carries the rocker position and no previous control
    byte); the loop goes on with the next response.  The script, which
    carries the previous control byte but does not look at the echo, skips
    in the same way a response that is missing or of another length. *)
Theorem C8_malformed_skipped response self rest :
  malformed response ->
  gui_main.poll_cycle response self = (tt, self, [])
  /\ gui_main.kpod_worker (response :: rest) self = gui_main.kpod_worker rest self
  /\ forall st,
       match response with None => True | Some r => length r <> 8%nat end ->
       kpod.poll_cycle response st = (tt, st, [])
       /\ kpod.main (response :: rest) st = kpod.main rest st.
Proof.
  intros Hbad.
  assert (Hskip : gui_main.poll_cycle response self = (tt, self, [])).
  { destruct response as [[|r0 [|r1 [|r2 [|r3 [|r4 [|r5 [|r6 [|r7 [|r8 r]]]]]]]]]|];
      try reflexivity.
    unfold gui_main.poll_cycle.
    destruct (Z.eqb_spec (byte_to_Z r0) gui_main.KPOD_USB_CMD_UPDATE) as [Hecho|_];
      [|reflexivity].
    exfalso. destruct Hbad as [Hlen|Hhead]; [apply Hlen; reflexivity|].
    apply Hhead. cbn. f_equal. apply byte_to_Z_inj. exact Hecho. }
  split; [exact Hskip|]. split.
  - cbn [gui_main.kpod_worker]. apply bind_skip. exact Hskip.
  - intros st Hlen.
    assert (Hk : kpod.poll_cycle response st = (tt, st, [])).
    { destruct response as [[|r0 [|r1 [|r2 [|r3 [|r4 [|r5 [|r6 [|r7 [|r8 r]]]]]]]]]|];
        try reflexivity.
      exfalso. apply Hlen. reflexivity. }
    split; [exact Hk|]. cbn [kpod.main]. apply bind_skip. exact Hk.
Qed.

(** C8 at work: a wrong echo byte in front of a report that would otherwise
    send ticks and a button, and a short response. *)
Lemma C8_malformed_skipped_witness :
  gui_main.poll_cycle (Some [x00; x02; x00; x41; x00; x00; x00; x00])
                      (connected_at "VFO A")
  = (tt, connected_at "VFO A", [])
  /\ gui_main.poll_cycle (Some [x75; x02; x00; x41]) (connected_at "VFO A")
  = (tt, connected_at "VFO A", [])
  /\ kpod.poll_cycle (Some [x75; x02; x00; x41]) kpod.init = (tt, kpod.init, []).
Proof.
  split; [|split].
  - refine (proj1 (C8_malformed_skipped
                     (Some [x00; x02; x00; x41; x00; x00; x00; x00])
                     (connected_at "VFO A") [] _)).
    right. cbn. discriminate.
  - refine (proj1 (C8_malformed_skipped (Some [x75; x02; x00; x41])
                     (connected_at "VFO A") [] _)).
    left. cbn. discriminate.
  - refine (proj1 (proj2 (proj2 (C8_malformed_skipped (Some [x75; x02; x00; x41])
                     (connected_at "VFO A") [] _)) kpod.init _)).
    + left. cbn. discriminate.
    + cbn. discriminate.
Defined.

(** ** The button stage: button number and note *)

Section ButtonClaims.
Import gui_main.

Lemma lowest_set_bit_unique b i j :
  lowest_set_bit b i -> lowest_set_bit b j -> i = j.
Proof.
  intros (Hi & Hbi & Hlow_i) (Hj & Hbj & Hlow_j).
  destruct (Z.lt_trichotomy i j) as [Hlt|[Heq|Hgt]]; [|assumption|].
  - rewrite (Hlow_j i) in Hbi by lia. discriminate.
  - rewrite (Hlow_i j) in Hbj by lia. discriminate.
Qed.

(** The base note of the fallback formula. *)
Lemma button_note_table mode bb i :
  1 <= bb <= 8 ->
  button_note mode bb i = match mode with TAP => 64 | HOLD => 72 end + (bb - 1).
Proof.
  intros Hbb. unfold button_note.
  small_cases bb 9%nat; eval_lookups; destruct mode; reflexivity.
Qed.

Lemma button_note_fallback mode bb i :
  match mode with
  | TAP => TAP_NOTE_MAP !! Z.lor 0x40 bb
  | HOLD => HOLD_NOTE_MAP !! Z.lor 0x50 bb
  end = None ->
  button_note mode bb i = match mode with TAP => 64 | HOLD => 72 end + i.
Proof.
  unfold button_note. destruct mode; intros ->; [reflexivity|].
  destruct (TAP_NOTE_MAP !! Z.lor 64 bb); reflexivity.
Qed.

Lemma no_table_entry mode bb :
  9 <= bb < 16 ->
  match mode with
  | TAP => TAP_NOTE_MAP !! Z.lor 0x40 bb
  | HOLD => HOLD_NOTE_MAP !! Z.lor 0x50 bb
  end = None.
Proof.
  intros Hbb. small_cases bb 16%nat; destruct mode; vm_compute; reflexivity.
Qed.

(** In the nibbles 1..8 the lowest set bit is bit [bb - 1] for 1 and 2 only. *)
Lemma lowest_bit_of_table_nibble bb i :
  1 <= bb <= 8 -> lowest_set_bit bb i -> (i = bb - 1 <-> bb = 1 \/ bb = 2).
Proof.
  intros Hbb Hlow.
  small_cases bb 9%nat; (split; intros Hx; [|try lia]).
  all: try (subst i; destruct Hlow as (_ & Hbit & _); vm_compute in Hbit;
            first [discriminate | lia]).
  - apply (lowest_set_bit_unique 2); [assumption | lowest_bit_tac].
  - apply (lowest_set_bit_unique 1); [assumption | lowest_bit_tac].
Qed.

(** [controls & 0x10] is non-zero exactly when bit 4 is set. *)
Lemma land_16_testbit controls :
  (Z.land controls 0x10 =? 0) = negb (Z.testbit controls 4).
Proof.
  assert (H : Z.land controls 0x10 = if Z.testbit controls 4 then 0x10 else 0).
  { apply Z.bits_inj'. intros n Hn. rewrite Z.land_spec.
    change 0x10 with (2 ^ 4). rewrite Z.pow2_bits_eqb by lia.
    destruct (Z.eqb_spec 4 n) as [<-|Hne].
    - destruct (Z.testbit controls 4); reflexivity.
    - rewrite andb_false_r.
      destruct (Z.testbit controls 4);
        [rewrite Z.pow2_bits_eqb by lia; symmetry; apply Z.eqb_neq; assumption
        |symmetry; apply Z.bits_0]. }
  rewrite H. destruct (Z.testbit controls 4); reflexivity.
Qed.

(** The trace of the button stage once the lowest set bit is known. *)
Lemma handle_buttons_trace controls self port i :
  midi_out self = Some port ->
  Z.land controls 0x0F <> 0 ->
  lowest_set_bit (Z.land controls 0x0F) i ->
  let note := button_note (tap_hold_of controls) (Z.land controls 0x0F) i in
  trace_of (handle_buttons controls self) =
  [send_message (note_on note 127); send_message (note_off note);
   log_action (ButtonAction (tap_hold_of controls) (i + 1) note)].
Proof.
  intros Hport Hne Hlow note.
  destruct (handle_buttons_run controls self Hne) as (i' & _ & Hlow' & ->).
  rewrite (lowest_set_bit_unique _ _ _ Hlow' Hlow).
  rewrite press_button_run, Hport. reflexivity.
Qed.

Lemma lowest_set_bit_exists controls :
  Z.land controls 0x0F <> 0 -> exists i, lowest_set_bit (Z.land controls 0x0F) i.
Proof.
  intros Hne. destruct (handle_buttons_run controls (init None) Hne) as (i & _ & Hlow & _).
  exists i. exact Hlow.
Qed.
End ButtonClaims.

(** C4 (amended). For a control byte with a non-zero button nibble, the
    logged button number is the 1-based index of the lowest set bit and the
    mode is HOLD exactly when bit 4 is set; the note sent is the table entry
    of the combined value for nibbles 1..8, that is base + (nibble - 1), and
    base + (button number - 1) only for the nibbles 9..15, with base 64 for
    TAP and 72 for HOLD.  The note is base + (button number - 1) exactly for
    the nibbles 1, 2 and 9..15. *)
Theorem C4_button_note_by_table controls self port :
  gui_main.midi_out self = Some port ->
  Z.land controls 0x0F <> 0 ->
  let button_bits := Z.land controls 0x0F in
  let mode := gui_main.tap_hold_of controls in
  let base_note := match mode with gui_main.TAP => 64 | gui_main.HOLD => 72 end in
  (mode = gui_main.HOLD <-> Z.testbit controls 4 = true)
  /\ (exists i, lowest_set_bit button_bits i)
  /\ forall i, lowest_set_bit button_bits i ->
       let button_num := i + 1 in
       let note := if button_bits <=? 8 then base_note + (button_bits - 1)
                   else base_note + (button_num - 1) in
       trace_of (gui_main.handle_buttons controls self) =
         [gui_main.send_message (note_on note 127);
          gui_main.send_message (note_off note);
          gui_main.log_action (gui_main.ButtonAction mode button_num note)]
       /\ (note = base_note + (button_num - 1)
           <-> button_bits = 1 \/ button_bits = 2 \/ 9 <= button_bits).
Proof.
  intros Hport Hne button_bits mode base_note.
  pose proof (land_15_range controls) as Hrange. fold button_bits in Hrange, Hne.
  split; [|split; [apply lowest_set_bit_exists; assumption|]].
  - subst mode. unfold gui_main.tap_hold_of. rewrite land_16_testbit.
    destruct (Z.testbit controls 4); cbn; split; congruence.
  - intros i Hlow button_num note.
    pose proof (handle_buttons_trace controls self port i Hport Hne Hlow) as Htrace.
    cbv zeta in Htrace. fold button_bits mode in Htrace.
    destruct (Z.leb_spec button_bits 8) as [Hle|Hgt].
    + assert (Hnote : gui_main.button_note mode button_bits i = note).
      { subst note. apply button_note_table. lia. }
      rewrite Hnote in Htrace. split; [exact Htrace|].
      pose proof (lowest_bit_of_table_nibble button_bits i ltac:(lia) Hlow) as Hidx.
      subst note button_num. split; intros Hx; [|lia].
      assert (i = button_bits - 1) by lia. lia.
    + assert (Hnote : gui_main.button_note mode button_bits i = note).
      { subst note button_num. replace (i + 1 - 1) with i by lia.
        apply button_note_fallback. apply no_table_entry. lia. }
      rewrite Hnote in Htrace. split; [exact Htrace|].
      split; intros Hx; [lia | reflexivity].
Qed.

(** The claim C4 as stated fails at the control byte 0x04 (bit 2 alone,
    TAP): the button number is 3 but the note sent is 67, not 64 + 2; and at
    0x03 (bits 0 and 1): the button number is 1 but the note sent is 66. *)
Lemma C4_counterexample :
  lowest_set_bit (Z.land 0x04 0x0F) 2
  /\ gui_main.tap_hold_of 0x04 = gui_main.TAP
  /\ trace_of (gui_main.handle_buttons 0x04 (connected_at "VFO A")) =
     [gui_main.send_message [0x90; 67; 127]; gui_main.send_message [0x80; 67; 0];
      gui_main.log_action (gui_main.ButtonAction gui_main.TAP 3 67)]
  /\ 67 <> 64 + (3 - 1)
  /\ lowest_set_bit (Z.land 0x03 0x0F) 0
  /\ trace_of (gui_main.handle_buttons 0x03 (connected_at "VFO A")) =
     [gui_main.send_message [0x90; 66; 127]; gui_main.send_message [0x80; 66; 0];
      gui_main.log_action (gui_main.ButtonAction gui_main.TAP 1 66)]
  /\ 66 <> 64 + (1 - 1).
Proof.
  repeat split; try reflexivity; try lia.
  intros j Hj. small_cases j 4%nat; first [reflexivity | lia].
Qed.

(** C4 (amended) at work: HOLD with bits 1 and 2 set. *)
Lemma C4_button_note_by_table_witness :
  trace_of (gui_main.handle_buttons 0x16 (connected_at "VFO A")) =
  [gui_main.send_message [0x90; 77; 127]; gui_main.send_message [0x80; 77; 0];
   gui_main.log_action (gui_main.ButtonAction gui_main.HOLD 2 77)].
Proof.
  refine (proj1 (proj2 (proj2 (C4_button_note_by_table 0x16 (connected_at "VFO A")
                                 0%nat eq_refl _)) 1 _)).
  - discriminate.
  - lowest_bit_tac.
Defined.

(** C5. For a control byte with a non-zero button nibble whose combined
    flag value (0x40 | nibble for TAP, 0x50 | nibble for HOLD) has no entry
    in the table of its mode, the button stage still sends a note, the base
    note (64 for TAP, 72 for HOLD) plus the button number minus one, the
    button number being the 1-based index of the lowest set bit.  For
    button 3 in HOLD mode that is note 74. *)
Theorem C5_fallback_note controls self port :
  gui_main.midi_out self = Some port ->
  Z.land controls 0x0F <> 0 ->
  let button_bits := Z.land controls 0x0F in
  let mode := gui_main.tap_hold_of controls in
  let base_note := match mode with gui_main.TAP => 64 | gui_main.HOLD => 72 end in
  match mode with
  | gui_main.TAP => gui_main.TAP_NOTE_MAP !! Z.lor 0x40 button_bits
  | gui_main.HOLD => gui_main.HOLD_NOTE_MAP !! Z.lor 0x50 button_bits
  end = None ->
  (exists i, lowest_set_bit button_bits i)
  /\ forall i, lowest_set_bit button_bits i ->
       let button_num := i + 1 in
       let note := base_note + (button_num - 1) in
       trace_of (gui_main.handle_buttons controls self) =
         [gui_main.send_message (note_on note 127);
          gui_main.send_message (note_off note);
          gui_main.log_action (gui_main.ButtonAction mode button_num note)]
       /\ (mode = gui_main.HOLD -> button_num = 3 -> note = 74).
Proof.
  intros Hport Hne button_bits mode base_note Hmiss.
  split; [apply lowest_set_bit_exists; assumption|].
  intros i Hlow button_num note.
  pose proof (handle_buttons_trace controls self port i Hport Hne Hlow) as Htrace.
  cbv zeta in Htrace. fold button_bits mode in Htrace.
  rewrite (button_note_fallback mode button_bits i Hmiss) in Htrace.
  fold base_note in Htrace.
  replace (base_note + i) with note in Htrace by (subst note button_num; lia).
  split; [exact Htrace|].
  intros Hmode Hnum. subst note base_note. rewrite Hmode, Hnum. reflexivity.
Qed.

(** C5 at work: the control byte 0x1C, HOLD with bits 2 and 3 set, encodes
    button 3 and 0x5C is in no table. *)
Lemma C5_fallback_note_witness :
  gui_main.HOLD_NOTE_MAP !! Z.lor 0x50 (Z.land 0x1C 0x0F) = None
  /\ trace_of (gui_main.handle_buttons 0x1C (connected_at "VFO A")) =
     [gui_main.send_message [0x90; 74; 127]; gui_main.send_message [0x80; 74; 0];
      gui_main.log_action (gui_main.ButtonAction gui_main.HOLD 3 74)].
Proof.
  split; [vm_compute; reflexivity|].
  refine (proj1 (proj2 (C5_fallback_note 0x1C (connected_at "VFO A") 0%nat
                          eq_refl _ _) 2 _)).
  - discriminate.
  - vm_compute. reflexivity.
  - lowest_bit_tac.
Defined.

(** ** The rocker stage *)

(** C3, at the failing input.  The report [u, 00 00, 0x01] has rocker bits
    00 and activity (button bit 0), yet the tracker resolves no position and
    the tracked position stays what it was; only a control byte that is
    0x00 as a whole, with a non-zero tick delta, is resolved to VFO B. *)
Theorem C3_button_activity_not_center self :
  Z.land (Z.shiftr 0x01 5) 0x03 = 0
  /\ gui_main.has_activity_of 0 0x01 = true
  /\ gui_main.detect_rocker_position_from_event 0x01 true self = None
  /\ gui_main.current_rocker
       (state_of (gui_main.poll_cycle (report x75 x00 x00 x01) self))
     = gui_main.current_rocker self
  /\ gui_main.detect_rocker_position_from_event 0x00 true self = Some "VFO B"%string.
Proof.
  repeat split; try reflexivity.
  unfold report. rewrite poll_cycle_run. cbn [state_of fst snd].
  rewrite handle_rocker_run. reflexivity.
Qed.

(** The position tracked after a cycle is the one the detector returns, and
    the old one when it returns none. *)
Lemma position_after lo hi c self :
  gui_main.current_rocker
    (state_of (gui_main.poll_cycle (report x75 lo hi c) self))
  = match gui_main.detect_rocker_position_from_event (byte_to_Z c)
            (gui_main.has_activity_of (unpack_h lo hi) (byte_to_Z c)) self with
    | Some p => p
    | None => gui_main.current_rocker self
    end.
Proof.
  unfold report. rewrite poll_cycle_run. cbn [state_of fst snd].
  rewrite handle_rocker_run.
  destruct (gui_main.detect_rocker_position_from_event _ _ self) as [p|];
    [|reflexivity].
  destruct (String.eqb_spec p (gui_main.current_rocker self)) as [->|_];
    reflexivity.
Qed.

(** The claim C2 as stated fails on the reports [u, 00 00, 0x40],
    [u, 00 00, 0x00], [u, 01 00, 0x00]: the second report, with rocker bits
    00 and no activity, already moves the position from VFO A to VFO B. *)
Lemma C2_counterexample :
  positions [report x75 x00 x00 x40;
             report x75 x00 x00 x00;
             report x75 x01 x00 x00] (gui_main.init (Some 0%nat))
  = ["VFO A"; "VFO B"; "VFO B"]%string
  /\ positions [report x75 x00 x00 x40;
                report x75 x00 x00 x00;
                report x75 x01 x00 x00] (gui_main.init (Some 0%nat))
     <> ["VFO A"; "VFO A"; "VFO B"]%string.
Proof. split; [reflexivity | discriminate]. Qed.

(** C2 (amended). From the initial position UNKNOWN, a report with rocker
    bits 10, then the idle report (control byte 0x00, tick delta 0), then a
    report with rocker bits 00 and any activity: the position is VFO A after
    the first report, VFO B after the second (leaving VFO A for the center
    is inferred without activity) and still VFO B after the third. *)
Theorem C2_rocker_trace port lo1 hi1 c1 lo3 hi3 c3 :
  Z.land (Z.shiftr (byte_to_Z c1) 5) 0x03 = 2 ->
  Z.land (Z.shiftr (byte_to_Z c3) 5) 0x03 = 0 ->
  gui_main.has_activity_of (unpack_h lo3 hi3) (byte_to_Z c3) = true ->
  gui_main.has_activity_of (unpack_h x00 x00) (byte_to_Z x00) = false
  /\ positions [report x75 lo1 hi1 c1;
                report x75 x00 x00 x00;
                report x75 lo3 hi3 c3] (gui_main.init port)
     = ["VFO A"; "VFO B"; "VFO B"]%string.
Proof.
  intros Hleft Hcenter Hact. split; [reflexivity|].
  cbn [positions].
  set (self1 := state_of (gui_main.poll_cycle (report x75 lo1 hi1 c1)
                            (gui_main.init port))).
  set (self2 := state_of (gui_main.poll_cycle (report x75 x00 x00 x00) self1)).
  assert (H1 : gui_main.current_rocker self1 = "VFO A"%string).
  { subst self1. rewrite position_after.
    unfold gui_main.detect_rocker_position_from_event. rewrite Hleft. reflexivity. }
  assert (H2 : gui_main.current_rocker self2 = "VFO B"%string).
  { subst self2. rewrite position_after.
    unfold gui_main.detect_rocker_position_from_event. rewrite H1. reflexivity. }
  rewrite H1, H2. do 2 f_equal.
  rewrite position_after.
  unfold gui_main.detect_rocker_position_from_event. rewrite Hcenter, Hact, H2.
  cbn. destruct (byte_to_Z c3 =? 0); reflexivity.
Qed.

(** C2 (amended) at work: the third report carries one tick. *)
Lemma C2_rocker_trace_witness :
  positions [report x75 x00 x00 x40;
             report x75 x00 x00 x00;
             report x75 x01 x00 x00] (gui_main.init None)
  = ["VFO A"; "VFO B"; "VFO B"]%string.
Proof.
  apply (proj2 (C2_rocker_trace None x00 x00 x40 x01 x00 x00
                  eq_refl eq_refl eq_refl)).
Defined.

(** ** The stages of the script kpod.py *)

Section KpodStages.
Import kpod.

Lemma kpod_send_note_run note velocity st :
  send_note note velocity st = (tt, st, note_pair note velocity).
Proof. reflexivity. Qed.

Lemma detect_rocker_run flags st :
  trace_of (detect_rocker flags st) = []
  /\ last_flags (state_of (detect_rocker flags st)) = last_flags st.
Proof.
  unfold detect_rocker. rewrite bind_trace, bind_state.
  cbn [get_state result state_of trace_of fst snd app].
  repeat match goal with |- context [if ?b then _ else _] => destruct b end;
    split; reflexivity.
Qed.

Lemma kpod_note_pairs k note :
  concat (replicate k (note_pair note 127)) = note_pairs k note.
Proof. induction k as [|k IH]; [reflexivity|]. cbn [replicate concat note_pairs]. rewrite IH. reflexivity. Qed.

Lemma ROCKER_NOTE_MAP_range k cw ccw :
  default (102, 103) (ROCKER_NOTE_MAP !! k) = (cw, ccw) ->
  100 <= cw <= 105 /\ 100 <= ccw <= 105.
Proof.
  destruct (ROCKER_NOTE_MAP !! k) as [[a b]|] eqn:Hk; cbn [default].
  - apply elem_of_list_to_map_2 in Hk. rewrite !elem_of_cons, elem_of_nil in Hk.
    intros [= <- <-]. destruct Hk as [Hk|[Hk|[Hk|[]]]]; injection Hk as -> -> ->; lia.
  - intros [= <- <-]. lia.
Qed.

(** The tick loop leaves the locals alone and sends [abs ticks] pairs on one
    encoder note. *)
Lemma send_ticks_run ticks st :
  exists note, 100 <= note <= 105 /\
    send_ticks ticks st = (tt, st, note_pairs (Z.to_nat (Z.abs ticks)) note).
Proof.
  unfold send_ticks. rewrite bind_run.
  cbn [get_state result state_of trace_of fst snd app].
  destruct (default (102, 103) (ROCKER_NOTE_MAP !! current_rocker st))
    as [cw ccw] eqn:Hnotes.
  apply ROCKER_NOTE_MAP_range in Hnotes as [Hcw Hccw].
  destruct (Z.ltb_spec 0 ticks) as [Hpos|Hnpos].
  - exists cw. split; [assumption|].
    erewrite for_range_run by apply kpod_send_note_run.
    rewrite kpod_note_pairs, Z.abs_eq by lia. reflexivity.
  - destruct (Z.ltb_spec ticks 0) as [Hneg|Hzero].
    + exists ccw. split; [assumption|].
      erewrite for_range_run by apply kpod_send_note_run.
      rewrite kpod_note_pairs. reflexivity.
    + exists cw. split; [assumption|]. replace ticks with 0 by lia. reflexivity.
Qed.

Lemma TAP_NOTE_MAP_range k note :
  TAP_NOTE_MAP !! k = Some note -> 64 <= note <= 79.
Proof.
  intros Hk. apply elem_of_list_to_map_2 in Hk.
  rewrite !elem_of_cons, elem_of_nil in Hk.
  repeat (destruct Hk as [Hk|Hk]; [injection Hk as -> ->; lia|]). destruct Hk.
Qed.

Lemma HOLD_NOTE_MAP_range k note :
  HOLD_NOTE_MAP !! k = Some note -> 64 <= note <= 79.
Proof.
  intros Hk. apply elem_of_list_to_map_2 in Hk.
  rewrite !elem_of_cons, elem_of_nil in Hk.
  repeat (destruct Hk as [Hk|Hk]; [injection Hk as -> ->; lia|]). destruct Hk.
Qed.
End KpodStages.

Section KpodCycle.
Import kpod.

Lemma detect_buttons_run flags st :
  detect_buttons flags st =
  if flags =? last_flags st then (tt, st, [])
  else (tt, {| current_rocker := current_rocker st; last_flags := flags |},
        match flags_note flags with
        | Some note => note_pair note 127
        | None => []
        end).
Proof.
  unfold detect_buttons, flags_note. rewrite bind_run.
  cbn [get_state result state_of trace_of fst snd app].
  destruct (flags =? last_flags st); [reflexivity|]. cbn [negb].
  destruct (TAP_NOTE_MAP !! flags), (HOLD_NOTE_MAP !! flags); reflexivity.
Qed.

Lemma flags_note_range flags note : flags_note flags = Some note -> 64 <= note <= 79.
Proof.
  unfold flags_note.
  destruct (kpod.TAP_NOTE_MAP !! flags) eqn:Ht;
    [intros [= <-]; eapply TAP_NOTE_MAP_range; eassumption|].
  destruct (kpod.HOLD_NOTE_MAP !! flags) eqn:Hh; [|discriminate].
  intros [= <-]. eapply HOLD_NOTE_MAP_range; eassumption.
Qed.

(** The button notes of a cycle are those of the button stage, which acts
    on a change of the control byte only and then records it. *)
Lemma kpod_poll_cycle_buttons r0 r1 r2 r3 r4 r5 r6 r7 st :
  let flags := byte_to_Z r3 in
  let run := poll_cycle (Some [r0; r1; r2; r3; r4; r5; r6; r7]) st in
  button_msgs (trace_of run) =
    (if flags =? last_flags st then []
     else match flags_note flags with
          | Some note => note_pair note 127
          | None => []
          end)
  /\ last_flags (state_of run) = flags.
Proof.
  intros flags run. subst run. unfold poll_cycle. fold flags.
  rewrite !bind_run. cbn [result state_of trace_of fst snd].
  destruct (detect_rocker_run flags st) as [Htr Hlf].
  destruct (send_ticks_run (unpack_h r1 r2) (state_of (detect_rocker flags st)))
    as (note & Hnote & ->).
  cbn [result state_of trace_of fst snd]. rewrite Htr. cbn [app].
  rewrite detect_buttons_run, Hlf. unfold button_msgs. rewrite msgs_in_app.
  rewrite msgs_in_pairs_outside by lia. cbn [app].
  destruct (Z.eqb_spec flags (last_flags st)) as [Heq|Hne].
  - cbn [trace_of state_of fst snd]. split; [reflexivity|]. rewrite Hlf. auto.
  - cbn [trace_of state_of fst snd last_flags]. split; [|reflexivity].
    destruct (flags_note flags) as [n|] eqn:Hn; [|reflexivity].
    apply msgs_in_pair_inside. eapply flags_note_range. eassumption.
Qed.

Lemma main_app l1 l2 st :
  trace_of (main (l1 ++ l2) st) =
    trace_of (main l1 st) ++ trace_of (main l2 (state_of (main l1 st)))
  /\ state_of (main (l1 ++ l2) st) = state_of (main l2 (state_of (main l1 st))).
Proof.
  revert st. induction l1 as [|r l1 IH]; intros st; [split; reflexivity|].
  cbn [app main]. rewrite !bind_trace, !bind_state.
  destruct (IH (state_of (poll_cycle r st))) as [-> ->].
  rewrite app_assoc. split; reflexivity.
Qed.

(** Further reports with the control byte already recorded add no button
    note, whatever their tick deltas. *)
Lemma main_same_flags c (ts : list (byte * byte)) st :
  last_flags st = byte_to_Z c ->
  let run := main (map (fun t => report x75 (fst t) (snd t) c) ts) st in
  button_msgs (trace_of run) = [] /\ last_flags (state_of run) = byte_to_Z c.
Proof.
  revert st. induction ts as [|t ts IH]; intros st Hst run; subst run;
    [split; [reflexivity | assumption]|].
  cbn [map main]. rewrite bind_trace, bind_state. cbn [result].
  unfold report at 1 3.
  destruct (kpod_poll_cycle_buttons x75 (fst t) (snd t) c x00 x00 x00 x00 st)
    as [Hbt Hlf].
  unfold button_msgs in *. rewrite msgs_in_app, Hbt, Hst, Z.eqb_refl.
  cbn [app]. apply IH. exact Hlf.
Qed.
End KpodCycle.

(** ** Button events across cycles *)

(** In the GUI worker the button notes of a cycle are those of the button
    stage, which looks at the current report only. *)
Lemma gui_poll_cycle_buttons r1 r2 r3 r4 r5 r6 r7 self port :
  gui_main.midi_out self = Some port ->
  let controls := byte_to_Z r3 in
  let run := gui_main.poll_cycle (Some [x75; r1; r2; r3; r4; r5; r6; r7]) self in
  (Z.land controls 0x0F = 0 /\ button_msgs (gui_main.midi_sent (trace_of run)) = [])
  \/ (Z.land controls 0x0F <> 0 /\
      exists i, lowest_set_bit (Z.land controls 0x0F) i /\
        button_msgs (gui_main.midi_sent (trace_of run)) =
        note_pair (gui_main.button_note (gui_main.tap_hold_of controls)
                     (Z.land controls 0x0F) i) 127).
Proof.
  intros Hport controls run. subst run. unfold button_msgs.
  rewrite (poll_cycle_class_msgs 64 79 r1 r2 r3 r4 r5 r6 r7 self port Hport)
    by (left; split; reflexivity).
  fold controls.
  set (rk := gui_main.handle_rocker controls
               (gui_main.has_activity_of (unpack_h r1 r2) controls) self).
  assert (Hrk : msgs_in 64 79 (gui_main.midi_sent (trace_of rk)) = []).
  { destruct (handle_rocker_midi controls
                (gui_main.has_activity_of (unpack_h r1 r2) controls) self port Hport)
      as [[Hnil _]|(note & _ & Hrange & _ & _ & Hpair)]; fold rk in Hnil || fold rk in Hpair.
    - rewrite Hnil. reflexivity.
    - rewrite Hpair. apply msgs_in_pair_outside. lia. }
  rewrite Hrk. cbn [app].
  assert (Hport' : gui_main.midi_out (state_of rk) = Some port).
  { subst rk. rewrite handle_rocker_midi_out. assumption. }
  destruct (handle_buttons_midi controls (state_of rk) port Hport')
    as [[H0 Hnil]|(Hne & i & Hlow & Hrange & Hpair)].
  - left. split; [assumption|]. rewrite Hnil. reflexivity.
  - right. split; [assumption|]. exists i. split; [assumption|].
    rewrite Hpair. apply msgs_in_pair_inside. assumption.
Qed.

Lemma kpod_worker_cons response rest self :
  trace_of (gui_main.kpod_worker (response :: rest) self) =
  trace_of (gui_main.poll_cycle response self)
  ++ trace_of (gui_main.kpod_worker rest (state_of (gui_main.poll_cycle response self))).
Proof. reflexivity. Qed.

(** Every report with control byte 0x41 adds one pair on note 64. *)
Lemma gui_repeated_tap (ts : list (byte * byte)) self port :
  gui_main.midi_out self = Some port ->
  button_msgs (gui_main.midi_sent (trace_of (gui_main.kpod_worker
    (map (fun t => report x75 (fst t) (snd t) x41) ts) self)))
  = note_pairs (length ts) 64.
Proof.
  revert self. induction ts as [|t ts IH]; intros self Hport; [reflexivity|].
  cbn [map length note_pairs]. rewrite kpod_worker_cons, midi_sent_app.
  unfold button_msgs in *. rewrite msgs_in_app. f_equal.
  - unfold report.
    destruct (gui_poll_cycle_buttons (fst t) (snd t) x41 x00 x00 x00 x00 self port Hport)
      as [[H0 _]|(_ & i & _ & Hpair)]; [discriminate H0|].
    unfold button_msgs in Hpair. rewrite Hpair.
    change (Z.land (byte_to_Z x41) 15) with 1.
    rewrite button_note_table by lia. reflexivity.
  - apply IH. rewrite poll_cycle_midi_out. assumption.
Qed.

Lemma kpod_worker_app l1 l2 self :
  trace_of (gui_main.kpod_worker (l1 ++ l2) self) =
    trace_of (gui_main.kpod_worker l1 self)
    ++ trace_of (gui_main.kpod_worker l2 (state_of (gui_main.kpod_worker l1 self)))
  /\ state_of (gui_main.kpod_worker (l1 ++ l2) self) =
     state_of (gui_main.kpod_worker l2 (state_of (gui_main.kpod_worker l1 self))).
Proof.
  revert self. induction l1 as [|r l1 IH]; intros self; [split; reflexivity|].
  cbn [app gui_main.kpod_worker]. rewrite !bind_trace, !bind_state.
  destruct (IH (state_of (gui_main.poll_cycle r self))) as [-> ->].
  rewrite app_assoc. split; reflexivity.
Qed.

Lemma kpod_worker_midi_out responses self :
  gui_main.midi_out (state_of (gui_main.kpod_worker responses self))
  = gui_main.midi_out self.
Proof.
  revert self. induction responses as [|r rest IH]; intros self; [reflexivity|].
  cbn [gui_main.kpod_worker]. rewrite bind_state, IH. apply poll_cycle_midi_out.
Qed.

(** The claim C1 as stated fails in the GUI worker: the second of two
    reports with the same control byte 0x41 sends a TAP pair on note 64
    again, two in total. *)
Lemma C1_counterexample :
  button_msgs (gui_main.midi_sent (trace_of
    (gui_main.poll_cycle (report x75 x00 x00 x41)
       (state_of (gui_main.poll_cycle (report x75 x00 x00 x41)
                    (gui_main.init (Some 0%nat)))))))
  = [[0x90; 64; 127]; [0x80; 64; 0]]
  /\ button_msgs (gui_main.midi_sent (trace_of
       (gui_main.poll_cycle (report x75 x00 x00 x41)
          (state_of (gui_main.poll_cycle (report x75 x00 x00 x41)
                       (gui_main.init (Some 0%nat)))))))
     <> []
  /\ button_msgs (gui_main.midi_sent (trace_of
       (gui_main.kpod_worker [report x75 x00 x00 x41;
                              report x75 x00 x00 x41]
          (gui_main.init (Some 0%nat)))))
     = [[0x90; 64; 127]; [0x80; 64; 0]; [0x90; 64; 127]; [0x80; 64; 0]].
Proof. split; [reflexivity | split; [discriminate | reflexivity]]. Qed.

(** C1 (amended).  In the script kpod.py the button stage is edge-triggered
    on the control byte: a cycle whose control byte is that of the cycle
    before sends no button note; from the start, a report with control byte
    0x41 and any number of further ones send one TAP pair on note 64 in all,
    and 0x42 then 0x41 send two more pairs, on notes 65 and 64.  The GUI
    worker keeps no previous control byte: with a MIDI port open every report
    with control byte 0x41 sends its own pair on note 64, and 0x42 then 0x41
    send two more. *)
Theorem C1_edge_trigger_by_variant
    (st : kpod.locals) (a1 a2 b1 b2 c : byte)
    (t0 ta tb : byte * byte) (ts : list (byte * byte))
    (self : gui_main.KPODBridgeGUI) (port : nat) :
  gui_main.midi_out self = Some port ->
  let tap1 := fun t : byte * byte => report x75 (fst t) (snd t) x41 in
  let tap2 := fun t : byte * byte => report x75 (fst t) (snd t) x42 in
  button_msgs (trace_of
    (kpod.poll_cycle (report x75 b1 b2 c)
       (state_of (kpod.poll_cycle (report x75 a1 a2 c) st)))) = []
  /\ button_msgs (trace_of (kpod.main (tap1 t0 :: map tap1 ts) kpod.init))
     = note_pair 64 127
  /\ button_msgs (trace_of
       (kpod.main ((tap1 t0 :: map tap1 ts) ++ [tap2 ta; tap1 tb]) kpod.init))
     = note_pair 64 127 ++ note_pair 65 127 ++ note_pair 64 127
  /\ button_msgs (gui_main.midi_sent (trace_of
       (gui_main.kpod_worker (tap1 t0 :: map tap1 ts) self)))
     = note_pairs (S (length ts)) 64
  /\ button_msgs (gui_main.midi_sent (trace_of
       (gui_main.kpod_worker ((tap1 t0 :: map tap1 ts) ++ [tap2 ta; tap1 tb]) self)))
     = note_pairs (S (length ts)) 64 ++ note_pair 65 127 ++ note_pair 64 127.
Proof.
  intros Hport tap1 tap2.
  (* kpod.py, the first report 0x41 and the further ones *)
  assert (Hfirst : button_msgs (trace_of (kpod.poll_cycle (tap1 t0) kpod.init))
                   = note_pair 64 127
                   /\ kpod.last_flags (state_of (kpod.poll_cycle (tap1 t0) kpod.init))
                      = byte_to_Z x41).
  { destruct (kpod_poll_cycle_buttons x75 (fst t0) (snd t0) x41 x00 x00 x00 x00
                kpod.init) as [Hbt Hlf].
    change (tap1 t0) with (Some [x75; fst t0; snd t0; x41; x00; x00; x00; x00]).
    split; [rewrite Hbt; reflexivity | exact Hlf]. }
  destruct Hfirst as [Hfirst Hflags].
  pose proof (main_same_flags x41 ts _ Hflags) as [Hrest Hflags'].
  fold tap1 in Hrest, Hflags'.
  assert (Hrun : button_msgs (trace_of (kpod.main (tap1 t0 :: map tap1 ts) kpod.init))
                 = note_pair 64 127).
  { cbn [kpod.main]. rewrite bind_trace. cbn [result].
    unfold button_msgs in *. rewrite msgs_in_app, Hfirst, Hrest. reflexivity. }
  assert (Hgui : button_msgs (gui_main.midi_sent (trace_of
                   (gui_main.kpod_worker (tap1 t0 :: map tap1 ts) self)))
                 = note_pairs (S (length ts)) 64).
  { apply (gui_repeated_tap (t0 :: ts) self port Hport). }
  split; [|split; [exact Hrun|split; [|split; [exact Hgui|]]]].
  - unfold report.
    destruct (kpod_poll_cycle_buttons x75 a1 a2 c x00 x00 x00 x00 st) as [_ Hlf].
    destruct (kpod_poll_cycle_buttons x75 b1 b2 c x00 x00 x00 x00
                (state_of (kpod.poll_cycle (Some [x75; a1; a2; c; x00; x00; x00; x00]) st)))
      as [Hbt _].
    rewrite Hbt, Hlf, Z.eqb_refl. reflexivity.
  - destruct (main_app (tap1 t0 :: map tap1 ts) [tap2 ta; tap1 tb] kpod.init) as [-> _].
    unfold button_msgs in *. rewrite msgs_in_app, Hrun. f_equal.
    set (st1 := state_of (kpod.main (tap1 t0 :: map tap1 ts) kpod.init)).
    assert (Hst1 : kpod.last_flags st1 = byte_to_Z x41) by exact Hflags'.
    cbn [kpod.main]. rewrite !bind_trace. cbn [result].
    destruct (kpod_poll_cycle_buttons x75 (fst ta) (snd ta) x42 x00 x00 x00 x00 st1)
      as [Hb2 Hl2].
    destruct (kpod_poll_cycle_buttons x75 (fst tb) (snd tb) x41 x00 x00 x00 x00
                (state_of (kpod.poll_cycle (tap2 ta) st1))) as [Hb1 _].
    unfold button_msgs in *. rewrite !msgs_in_app.
    change (Some [x75; fst ta; snd ta; x42; x00; x00; x00; x00]) with (tap2 ta)
      in Hb2, Hl2.
    change (Some [x75; fst tb; snd tb; x41; x00; x00; x00; x00]) with (tap1 tb) in Hb1.
    rewrite Hb2, Hb1, Hl2, Hst1. reflexivity.
  - destruct (kpod_worker_app (tap1 t0 :: map tap1 ts) [tap2 ta; tap1 tb] self) as [-> _].
    rewrite midi_sent_app. unfold button_msgs in *. rewrite msgs_in_app, Hgui. f_equal.
    set (self1 := state_of (gui_main.kpod_worker (tap1 t0 :: map tap1 ts) self)).
    assert (Hport1 : gui_main.midi_out self1 = Some port).
    { subst self1. rewrite kpod_worker_midi_out. assumption. }
    rewrite !kpod_worker_cons, !midi_sent_app, !msgs_in_app. cbn [gui_main.kpod_worker].
    assert (Hport2 : gui_main.midi_out (state_of (gui_main.poll_cycle (tap2 ta) self1))
                     = Some port).
    { rewrite poll_cycle_midi_out. assumption. }
    destruct (gui_poll_cycle_buttons (fst ta) (snd ta) x42 x00 x00 x00 x00 self1 port Hport1)
      as [[H0 _]|(_ & i2 & _ & Hp2)]; [discriminate H0|].
    destruct (gui_poll_cycle_buttons (fst tb) (snd tb) x41 x00 x00 x00 x00 _ port Hport2)
      as [[H0 _]|(_ & i1 & _ & Hp1)]; [discriminate H0|].
    unfold button_msgs in Hp1, Hp2.
    change (Some [x75; fst ta; snd ta; x42; x00; x00; x00; x00]) with (tap2 ta) in Hp2.
    change (Some [x75; fst tb; snd tb; x41; x00; x00; x00; x00]) with (tap1 tb) in Hp1.
    rewrite Hp2, Hp1.
    change (Z.land (byte_to_Z x42) 15) with 2. change (Z.land (byte_to_Z x41) 15) with 1.
    rewrite !button_note_table by lia. reflexivity.
Qed.

(** C1 (amended) at work: three reports 0x41, then 0x42 and 0x41, in the
    script and in the GUI worker. *)
Lemma C1_edge_trigger_by_variant_witness :
  button_msgs (trace_of (kpod.main
    [report x75 x00 x00 x41; report x75 x01 x00 x41;
     report x75 x00 x00 x41; report x75 x00 x00 x42;
     report x75 x00 x00 x41] kpod.init))
  = [[0x90; 64; 127]; [0x80; 64; 0]; [0x90; 65; 127]; [0x80; 65; 0];
     [0x90; 64; 127]; [0x80; 64; 0]]
  /\ button_msgs (gui_main.midi_sent (trace_of (gui_main.kpod_worker
    [report x75 x00 x00 x41; report x75 x01 x00 x41;
     report x75 x00 x00 x41] (connected_at "UNKNOWN"))))
  = [[0x90; 64; 127]; [0x80; 64; 0]; [0x90; 64; 127]; [0x80; 64; 0];
     [0x90; 64; 127]; [0x80; 64; 0]].
Proof.
  pose proof (C1_edge_trigger_by_variant kpod.init x00 x00 x00 x00 x41
                (x00, x00) (x00, x00) (x00, x00) [(x01, x00); (x00, x00)]
                (connected_at "UNKNOWN") 0%nat eq_refl) as H.
  split; [exact (proj1 (proj2 (proj2 H))) | exact (proj1 (proj2 (proj2 (proj2 H))))].
Defined.

(** ** Note-On/Note-Off pairing *)

Lemma paired_app s1 s2 : paired s1 -> paired s2 -> paired (s1 ++ s2).
Proof.
  intros H1 H2. induction H1 as [|note velocity rest _ IH]; [assumption|].
  cbn [app]. constructor. assumption.
Qed.

Lemma paired_note_pair note velocity : paired (note_pair note velocity).
Proof. unfold note_pair. repeat constructor. Qed.

Section PairsOnly.
Context {St Ev : Type} (sent : list Ev -> list (list Z)).
Hypothesis sent_nil : sent [] = [].
Hypothesis sent_app : forall t1 t2, sent (t1 ++ t2) = sent t1 ++ sent t2.

Lemma pairs_only_ret {A} (a : A) : pairs_only sent (mret a : prog St Ev A).
Proof. intros s. cbn. rewrite sent_nil. constructor. Qed.

Lemma pairs_only_get : pairs_only sent (get_state : prog St Ev St).
Proof. intros s. cbn. rewrite sent_nil. constructor. Qed.

Lemma pairs_only_put s' : pairs_only sent (put_state s' : prog St Ev unit).
Proof. intros s. cbn. rewrite sent_nil. constructor. Qed.

Lemma pairs_only_bind {A B} (m : prog St Ev A) (k : A -> prog St Ev B) :
  pairs_only sent m -> (forall a, pairs_only sent (k a)) -> pairs_only sent (m ≫= k).
Proof.
  intros Hm Hk s. rewrite bind_trace, sent_app. apply paired_app; [apply Hm | apply Hk].
Qed.

Lemma pairs_only_for_range n (body : prog St Ev unit) :
  pairs_only sent body -> pairs_only sent (for_range n body).
Proof.
  intros Hbody. induction n as [|n IH]; [apply pairs_only_ret|].
  cbn [for_range]. apply pairs_only_bind; [assumption | intros _; assumption].
Qed.
End PairsOnly.

Create HintDb pairs.
#[export] Hint Resolve pairs_only_ret pairs_only_get pairs_only_put
  pairs_only_for_range : pairs.

(** Take a program apart along its binds, branches and loops. *)
Ltac pairs_step :=
  first
    [ solve [eauto with pairs]
    | apply pairs_only_bind; [eassumption .. | | intros ?]
    | apply pairs_only_for_range; [eassumption .. |]
    | match goal with
      | |- pairs_only _ (if ?b then _ else _) => destruct b
      | |- pairs_only _ (match ?x with _ => _ end) => destruct x
      | |- pairs_only _ (let '(_, _) := ?x in _) => destruct x
      end ].

Section GuiPairs.
Import gui_main.

Lemma gui_sent_nil : midi_sent [] = [].
Proof. reflexivity. Qed.

Lemma gui_send_note_pairs note velocity : pairs_only midi_sent (send_note note velocity).
Proof.
  intros self. rewrite send_note_run. cbn [trace_of snd].
  destruct (midi_out self); [apply paired_note_pair | constructor].
Qed.

Lemma gui_emit_log a :
  pairs_only midi_sent (emit (log_action a) : prog KPODBridgeGUI effect unit).
Proof. intros self. constructor. Qed.

Lemma gui_emit_display p :
  pairs_only midi_sent (emit (rocker_display p) : prog KPODBridgeGUI effect unit).
Proof. intros self. constructor. Qed.

Lemma gui_set_rocker p : pairs_only midi_sent (set_current_rocker p).
Proof. intros self. constructor. Qed.

Local Hint Resolve gui_send_note_pairs gui_emit_log gui_emit_display
  gui_set_rocker : pairs.

Local Ltac gui_pairs :=
  pose proof gui_sent_nil; pose proof midi_sent_app;
  repeat pairs_step; eauto with pairs.

Lemma handle_rocker_pairs controls a : pairs_only midi_sent (handle_rocker controls a).
Proof. unfold handle_rocker, send_rocker_position_change. gui_pairs. Qed.

Lemma handle_encoder_pairs ticks : pairs_only midi_sent (handle_encoder ticks).
Proof. unfold handle_encoder. gui_pairs. Qed.

Lemma find_button_pairs mode bb indices :
  pairs_only midi_sent (find_button mode bb indices).
Proof.
  induction indices as [|i rest IH]; cbn [find_button]; [gui_pairs|].
  destruct (negb _); [unfold press_button; gui_pairs | assumption].
Qed.

Lemma handle_buttons_pairs controls : pairs_only midi_sent (handle_buttons controls).
Proof.
  unfold handle_buttons. destruct (negb _); [apply find_button_pairs | gui_pairs].
Qed.

Lemma gui_poll_cycle_pairs response : pairs_only midi_sent (poll_cycle response).
Proof.
  pose proof handle_rocker_pairs. pose proof handle_encoder_pairs.
  pose proof handle_buttons_pairs.
  unfold poll_cycle. gui_pairs.
Qed.
End GuiPairs.

Section KpodPairs.
Import kpod.

Let sent (t : list (list Z)) : list (list Z) := t.

Lemma kpod_send_note_pairs note velocity : pairs_only sent (send_note note velocity).
Proof. intros st. apply paired_note_pair. Qed.

Local Hint Resolve kpod_send_note_pairs : pairs.

Local Ltac kpod_pairs :=
  assert (sent [] = []) by reflexivity;
  assert (forall t1 t2, sent (t1 ++ t2) = sent t1 ++ sent t2) by reflexivity;
  repeat pairs_step; eauto with pairs.

Lemma kpod_poll_cycle_pairs response : pairs_only sent (poll_cycle response).
Proof.
  unfold poll_cycle, detect_rocker, send_ticks, detect_buttons. kpod_pairs.
Qed.

Lemma kpod_main_pairs responses st : paired (trace_of (main responses st)).
Proof.
  revert st. induction responses as [|r rest IH]; intros st; [constructor|].
  cbn [main]. rewrite bind_trace. apply paired_app; [|apply IH].
  apply (kpod_poll_cycle_pairs r st).
Qed.
End KpodPairs.

(** C9. Each [send_note] call of either program gives the MIDI port the
    Note-On message [0x90, note, velocity] and at once the Note-Off message
    [0x80, note, 0] of the same note (the GUI bridge sends nothing when it
    has no port), and no other code sends MIDI messages: over any sequence
    of responses the stream sent by the GUI worker and the stream sent by
    the script are made of adjacent Note-On/Note-Off pairs. *)
Theorem C9_note_on_off_pairs (responses : list (option (list byte)))
    (self : gui_main.KPODBridgeGUI) (st : kpod.locals) (note velocity : Z) :
  gui_main.midi_sent (trace_of (gui_main.send_note note velocity self))
    = match gui_main.midi_out self with
      | Some _ => [[0x90; note; velocity]; [0x80; note; 0]]
      | None => []
      end
  /\ trace_of (kpod.send_note note velocity st)
     = [[0x90; note; velocity]; [0x80; note; 0]]
  /\ paired (gui_main.midi_sent (trace_of (gui_main.kpod_worker responses self)))
  /\ paired (trace_of (kpod.main responses st)).
Proof.
  split; [|split; [reflexivity|split; [|apply kpod_main_pairs]]].
  - rewrite send_note_run. cbn [trace_of snd].
    destruct (gui_main.midi_out self); reflexivity.
  - revert self. induction responses as [|r rest IH]; intros self; [constructor|].
    rewrite kpod_worker_cons, midi_sent_app. apply paired_app; [|apply IH].
    apply (gui_poll_cycle_pairs r self).
Qed.

(** ** The tick delta *)

(** X1. The tick delta read from two bytes is their 16-bit two's complement
    value, low byte first: it lies in -32768..32767, is congruent to
    lo + 256 * hi modulo 65536, is negative exactly when the top bit of the
    high byte is set, and determines the two bytes. *)
Theorem X1_unpack_h_twos_complement lo hi :
  - 32768 <= unpack_h lo hi < 32768
  /\ (unpack_h lo hi) mod 65536 = byte_to_Z lo + 256 * byte_to_Z hi
  /\ (unpack_h lo hi < 0 <-> 128 <= byte_to_Z hi)
  /\ forall lo' hi', unpack_h lo' hi' = unpack_h lo hi -> lo' = lo /\ hi' = hi.
Proof.
  assert (Hmod : forall a b, (unpack_h a b) mod 65536 = byte_to_Z a + 256 * byte_to_Z b).
  { intros a b. unfold unpack_h.
    pose proof (byte_to_Z_range a). pose proof (byte_to_Z_range b).
    destruct (Z.ltb_spec (byte_to_Z a + 256 * byte_to_Z b) 32768).
    - apply Z.mod_small. lia.
    - replace (byte_to_Z a + 256 * byte_to_Z b - 65536)
        with (byte_to_Z a + 256 * byte_to_Z b + (-1) * 65536) by lia.
      rewrite Z.mod_add by lia. apply Z.mod_small. lia. }
  pose proof (byte_to_Z_range lo) as Hlo. pose proof (byte_to_Z_range hi) as Hhi.
  split; [|split; [apply Hmod|split]].
  - unfold unpack_h. destruct (Z.ltb_spec (byte_to_Z lo + 256 * byte_to_Z hi) 32768); lia.
  - unfold unpack_h. destruct (Z.ltb_spec (byte_to_Z lo + 256 * byte_to_Z hi) 32768); lia.
  - intros lo' hi' Heq. pose proof (Hmod lo' hi') as H1. rewrite Heq, Hmod in H1.
    pose proof (byte_to_Z_range lo'). pose proof (byte_to_Z_range hi').
    split; apply byte_to_Z_inj; lia.
Qed.

(** ** Commands to the device *)

Section Commands.
Import gui_main.

Lemma forallb_exists_false {A} (f : A -> bool) l :
  forallb f l = false -> exists x, In x l /\ f x = false.
Proof.
  induction l as [|a l IH]; cbn; [discriminate|].
  destruct (f a) eqn:Ha; cbn.
  - intros H. destruct (IH H) as (x & Hin & Hx). exists x. auto.
  - intros _. exists a. auto.
Qed.

(** X2. The packet of a command is 8 bytes long whatever the length of the
    data: the command code, then the first 7 data bytes, missing ones being
    0 and further ones dropped; and no packet is built (the command returns
    None) exactly when the command code or one of those 7 bytes is outside
    0..255. *)
Theorem X2_command_packet_shape cmd data :
  let d := match data with None => [] | Some d => d end in
  match command_packet cmd data with
  | Some pkt =>
      length pkt = 8%nat
      /\ pkt !! 0%nat = Some cmd
      /\ (forall i, (i < 7)%nat -> pkt !! S i = Some (default 0 (d !! i)))
      /\ Forall (fun b => 0 <= b < 256) pkt
  | None => exists b, b ∈ cmd :: take 7 d /\ ~ 0 <= b < 256
  end.
Proof.
  intros d. unfold command_packet.
  set (d' := match data with None => replicate 7 0 | Some d0 => d0 end).
  assert (Hlookup : forall i, (i < 7)%nat ->
            (take 7 d' ++ replicate (7 - length d') 0) !! i = Some (default 0 (d !! i))).
  { intros i Hi. subst d d'. destruct data as [l|].
    - destruct (Nat.lt_ge_cases i (length l)) as [Hlt|Hge].
      + rewrite lookup_app_l by (rewrite length_take; lia).
        rewrite lookup_take_lt by lia.
        destruct (lookup_lt_is_Some_2 l i Hlt) as [x ->]. reflexivity.
      + rewrite lookup_app_r by (rewrite length_take; lia).
        rewrite length_take, (lookup_ge_None_2 l i) by lia.
        apply lookup_replicate_2. lia.
    - do 7 (destruct i as [|i]; [reflexivity|]). lia. }
  assert (Hlen : length (take 7 d' ++ replicate (7 - length d') 0) = 7%nat).
  { rewrite length_app, length_take, length_replicate. lia. }
  destruct (forallb _ _) eqn:Hall.
  - split; [cbn [length]; rewrite Hlen; reflexivity|].
    split; [reflexivity|]. split; [exact Hlookup|].
    apply Forall_forall. intros b Hb. apply list_elem_of_In in Hb.
    rewrite forallb_forall in Hall. specialize (Hall b Hb).
    apply andb_true_iff in Hall. lia.
  - assert (Hex : exists b, b ∈ cmd :: take 7 d' ++ replicate (7 - length d') 0
                            /\ ~ 0 <= b < 256).
    { destruct (forallb_exists_false _ _ Hall) as (b & Hin & Hb).
      exists b. split; [apply list_elem_of_In; assumption|].
      intros Hr. apply andb_false_iff in Hb. lia. }
    destruct Hex as (b & Hin & Hb). exists b. split; [|assumption].
    apply elem_of_cons in Hin as [->|Hin]; [left|right].
    apply elem_of_app in Hin as [Hin|Hin].
    + subst d d'. destruct data as [l|]; [assumption|].
      apply list_elem_of_In in Hin. cbn in Hin. exfalso.
      repeat (destruct Hin as [<-|Hin]; [lia|]). destruct Hin.
    + apply elem_of_replicate in Hin as [-> _]. lia.
Qed.
End Commands.

(** ** Device information *)

Section DeviceInfo.
Import gui_main.

Lemma filter_keep_nonzero (name : list byte) :
  Forall (fun b => b <> x00) name ->
  List.filter (fun b => negb (Byte.eqb b x00)) name = name.
Proof.
  induction 1 as [|b l Hb _ IH]; [reflexivity|]. cbn [List.filter].
  destruct (Byte.eqb b x00) eqn:Hbx; [apply Byte.byte_dec_bl in Hbx; contradiction|].
  cbn [negb]. rewrite IH. reflexivity.
Qed.

Lemma filter_drop_padding n :
  List.filter (fun b => negb (Byte.eqb b x00)) (replicate n x00) = [].
Proof. induction n as [|n IH]; [reflexivity|]. cbn. exact IH. Qed.

(** X3. A device ID of at most 7 non-NUL characters, sent after the echo
    byte and padded with NUL bytes to 7, is read back exactly, whatever
    follows the first 8 bytes; a response of fewer than 8 bytes gives no
    ID. *)
Theorem X3_device_id_round_trip (echo : byte) (name extra : list byte) :
  (length name <= 7)%nat ->
  Forall (fun b => b <> x00) name ->
  device_id (Some (echo :: name ++ replicate (7 - length name) x00 ++ extra))
    = Some (string_of_list_byte name)
  /\ forall r, (length r < 8)%nat -> device_id (Some r) = None.
Proof.
  intros Hlen Hname. split.
  - unfold device_id.
    replace (8 <=? length (echo :: name ++ replicate (7 - length name) x00 ++ extra))%nat
      with true
      by (symmetry; apply Nat.leb_le; cbn [length];
          rewrite !length_app, length_replicate; lia).
    cbn [drop]. rewrite drop_0, app_assoc.
    rewrite take_app_length' by (rewrite length_app, length_replicate; lia).
    rewrite List.filter_app, filter_keep_nonzero, filter_drop_padding, app_nil_r
      by assumption.
    reflexivity.
  - intros r Hr. unfold device_id.
    destruct (Nat.leb_spec 8 (length r)); [lia | reflexivity].
Qed.

(** X3 at work: the ID "KPOD" in a response of 9 bytes. *)
Lemma X3_device_id_round_trip_witness :
  device_id (Some ["="; "K"; "P"; "O"; "D"; x00; x00; x00; xff]%byte) = Some "KPOD"%string.
Proof.
  refine (proj1 (X3_device_id_round_trip "=" ["K"; "P"; "O"; "D"]%byte [xff] _ _)).
  - cbn. lia.
  - repeat constructor; discriminate.
Defined.

(** X4. A firmware version major.minor with minor in 0..99, sent as the
    16-bit value 100 * major + minor (low byte first) in bytes 1 and 2, is
    read back as (major, minor); whatever the bytes, the minor part read is
    in 0..99 and 100 * major + minor is the value sent; a response of fewer
    than 3 bytes gives no version. *)
Theorem X4_firmware_version_round_trip (echo lo hi : byte) (rest : list byte)
    (major minor : Z) :
  0 <= minor < 100 ->
  0 <= 100 * major + minor < 32768 ->
  byte_to_Z lo + 256 * byte_to_Z hi = 100 * major + minor ->
  firmware_version (Some (echo :: lo :: hi :: rest)) = Some (major, minor)
  /\ (forall r M m, firmware_version r = Some (M, m) ->
        0 <= m < 100 /\
        exists e b1 b2 tl, r = Some (e :: b1 :: b2 :: tl) /\ 100 * M + m = unpack_h b1 b2)
  /\ (forall r, (length r < 3)%nat -> firmware_version (Some r) = None).
Proof.
  intros Hminor Hrange Hbytes. split; [|split].
  - unfold firmware_version, unpack_h. rewrite Hbytes.
    destruct (Z.ltb_spec (100 * major + minor) 32768); [|lia].
    f_equal. f_equal.
    + symmetry. apply (Z.div_unique _ 100 major minor); lia.
    + symmetry. apply (Z.mod_unique _ 100 major minor); lia.
  - intros r M m Hr. unfold firmware_version in Hr.
    destruct r as [[|e [|b1 [|b2 tl]]]|]; try discriminate.
    injection Hr as <- <-. split; [apply Z.mod_pos_bound; lia|].
    exists e, b1, b2, tl. split; [reflexivity|].
    pose proof (Z.div_mod (unpack_h b1 b2) 100 ltac:(lia)). lia.
  - intros r Hr. destruct r as [|e [|b1 [|b2 tl]]]; try reflexivity. cbn in Hr. lia.
Qed.

(** X4 at work: version 1.08 is sent as 108 = 0x006c. *)
Lemma X4_firmware_version_round_trip_witness :
  firmware_version (Some ["v"; x6c; x00; x00; x00; x00; x00; x00]%byte) = Some (1, 8).
Proof.
  refine (proj1 (X4_firmware_version_round_trip "v" x6c x00 [x00; x00; x00; x00; x00]
                   1 8 _ _ _)); [lia | lia | reflexivity].
Defined.
End DeviceInfo.

(** ** The search for the MIDI port *)

Lemma contains_spec needle hay :
  needle <> EmptyString ->
  (contains needle hay = true <->
   exists m, substring m (String.length needle) hay = needle).
Proof.
  intros Hne. unfold contains. destruct (index 0 needle hay) as [m|] eqn:Hidx.
  - split; [intros _|reflexivity]. exists m. eapply index_correct1. eassumption.
  - split; [discriminate|]. intros [m Hm]. exfalso.
    eapply (index_correct3 0 m); [eassumption | assumption | lia | assumption].
Qed.

Lemma iac_port_from_spec ports : forall i,
  match iac_port_from i ports with
  | Some k =>
      (i <= k)%nat
      /\ (exists p, ports !! (k - i)%nat = Some p /\ contains "IAC" p = true)
      /\ forall j q, (j < k - i)%nat -> ports !! j = Some q -> contains "IAC" q = false
  | None => forall q, q ∈ ports -> contains "IAC" q = false
  end.
Proof.
  induction ports as [|p rest IH]; intros i; cbn [iac_port_from].
  - intros q Hq. apply elem_of_nil in Hq. destruct Hq.
  - destruct (contains "IAC" p) eqn:Hp.
    + split; [lia|]. rewrite Nat.sub_diag. split; [exists p; auto|]. intros j q Hj. lia.
    + specialize (IH (S i)). destruct (iac_port_from (S i) rest) as [k|].
      * destruct IH as (Hle & (q & Hq & Hc) & Hbefore).
        split; [lia|]. replace (k - i)%nat with (S (k - S i)) by lia.
        split; [exists q; auto|].
        intros j q' Hj Hq'. destruct j as [|j]; [cbn in Hq'; congruence|].
        apply (Hbefore j q'); [lia | exact Hq'].
      * intros q Hq. apply elem_of_cons in Hq as [->|Hq]; auto.
Qed.

(** X5. The port chosen is the first one whose name has "IAC" as a
    substring: the index returned names such a port and no port before it
    does; none is returned exactly when no port name contains "IAC". *)
Theorem X5_iac_port_is_first_match (ports : list string) :
  match iac_port_index ports with
  | Some i =>
      (exists p, ports !! i = Some p /\ exists m, substring m 3 p = "IAC"%string)
      /\ forall j q, (j < i)%nat -> ports !! j = Some q ->
           forall m, substring m 3 q <> "IAC"%string
  | None => forall q, q ∈ ports -> forall m, substring m 3 q <> "IAC"%string
  end.
Proof.
  assert (Hyes : forall p, contains "IAC" p = true ->
                   exists m, substring m 3 p = "IAC"%string).
  { intros p Hp. apply (contains_spec "IAC" p); [discriminate | assumption]. }
  assert (Hno : forall p, contains "IAC" p = false ->
                  forall m, substring m 3 p <> "IAC"%string).
  { intros p Hp m Hm.
    assert (contains "IAC" p = true)
      by (apply (contains_spec "IAC" p); [discriminate | exists m; assumption]).
    congruence. }
  unfold iac_port_index. pose proof (iac_port_from_spec ports 0%nat) as H.
  destruct (iac_port_from 0 ports) as [k|].
  - destruct H as (_ & (p & Hp & Hc) & Hbefore). rewrite Nat.sub_0_r in *.
    split; [exists p; auto|]. intros j q Hj Hq. apply Hno. eapply Hbefore; eassumption.
  - intros q Hq. apply Hno. apply H. assumption.
Qed.

(** ** Traces of the GUI worker: the log and the MIDI port *)

Section GuiTraces.
Import gui_main.

Lemma non_midi_app t1 t2 : non_midi (t1 ++ t2) = non_midi t1 ++ non_midi t2.
Proof. apply flat_map_app. Qed.

Lemma actions_app t1 t2 : actions (t1 ++ t2) = actions t1 ++ actions t2.
Proof. apply flat_map_app. Qed.

Lemma displays_app t1 t2 : displays (t1 ++ t2) = displays t1 ++ displays t2.
Proof. apply flat_map_app. Qed.

Lemma play_app open t1 t2 : play open (t1 ++ t2) = play open t1 ++ play open t2.
Proof. apply flat_map_app. Qed.

Lemma send_note_sends note self :
  send_note note 127 self = (tt, self, note_sends self note).
Proof.
  rewrite send_note_run. unfold note_sends, port_open.
  destruct (midi_out self); reflexivity.
Qed.

(** A block: the sends of a note, then what is logged about it. *)
Lemma block_non_midi self note (tail : list effect) :
  non_midi tail = tail ->
  non_midi (note_sends self note ++ tail) = tail.
Proof.
  intros Htail. rewrite non_midi_app, Htail. unfold note_sends.
  destruct (port_open self); reflexivity.
Qed.

Lemma blocks_non_midi k self note (tail : list effect) :
  non_midi tail = tail ->
  non_midi (concat (replicate k (note_sends self note ++ tail)))
  = concat (replicate k tail).
Proof.
  intros Htail. induction k as [|k IH]; [reflexivity|].
  cbn [replicate concat]. rewrite non_midi_app, block_non_midi, IH by assumption.
  reflexivity.
Qed.

Lemma blocks_play k self (a : action) :
  play (port_open self) (concat (replicate k [log_action a]))
  = concat (replicate k (note_sends self (action_note a) ++ [log_action a])).
Proof.
  induction k as [|k IH]; [reflexivity|].
  cbn [replicate concat]. rewrite play_app, IH. f_equal.
  unfold note_sends. cbn. destruct (port_open self); reflexivity.
Qed.

(** The encoder stage, run: [abs ticks] blocks on the encoder note. *)
Lemma handle_encoder_run ticks self :
  handle_encoder ticks self =
  (tt, self,
   concat (replicate (Z.to_nat (Z.abs ticks))
     (note_sends self (encoder_note self ticks) ++
      [log_action (if 0 <? ticks
                   then EncoderCW (encoder_note self ticks) (current_rocker self)
                   else EncoderCCW (encoder_note self ticks) (current_rocker self))]))).
Proof.
  unfold handle_encoder, encoder_note. rewrite bind_run.
  cbn [get_state result state_of trace_of fst snd app].
  destruct (get_encoder_notes self) as [cw ccw]. cbn [fst snd].
  destruct (Z.ltb_spec 0 ticks) as [Hpos|Hnpos].
  - erewrite for_range_run
      by (rewrite bind_run, send_note_sends; reflexivity).
    rewrite Z.abs_eq by lia. reflexivity.
  - destruct (Z.ltb_spec ticks 0) as [Hneg|Hzero].
    + erewrite for_range_run
        by (rewrite bind_run, send_note_sends; reflexivity).
      reflexivity.
    + replace ticks with 0 by lia. reflexivity.
Qed.

(** The rocker stage, run. *)
Lemma handle_rocker_trace controls a self :
  handle_rocker controls a self =
  match detect_rocker_position_from_event controls a self with
  | Some p =>
      if (p =? current_rocker self)%string then (tt, self, [])
      else (tt, {| midi_out := midi_out self; current_rocker := p |},
            note_sends self (rocker_note p) ++
            [log_action (RockerAction p (rocker_note p)); rocker_display p])
  | None => (tt, self, [])
  end.
Proof.
  rewrite handle_rocker_run.
  destruct (detect_rocker_position_from_event controls a self) as [p|] eqn:Hd;
    [|reflexivity].
  destruct (p =? current_rocker self)%string; [reflexivity|].
  f_equal. unfold send_rocker_position_change, rocker_note.
  destruct (detect_range _ _ _ _ Hd) as [->|[->| ->]];
    (match goal with
     | |- context [ROCKER_POSITION_NOTES !! ?k] =>
         let v := eval vm_compute in (ROCKER_POSITION_NOTES !! k) in
         change (ROCKER_POSITION_NOTES !! k) with v
     end);
    cbn [default]; rewrite !bind_trace, send_note_sends;
    cbn [trace_of snd emit mret prog_ret result state_of fst];
    rewrite <- app_assoc; reflexivity.
Qed.

(** The button stage, run. *)
Lemma handle_buttons_trace_any controls self :
  handle_buttons controls self = (tt, self, [])
  \/ exists i, 0 <= i < 4 /\
       handle_buttons controls self =
       (tt, self,
        note_sends self (button_note (tap_hold_of controls) (Z.land controls 0x0F) i)
        ++ [log_action (ButtonAction (tap_hold_of controls) (i + 1)
              (button_note (tap_hold_of controls) (Z.land controls 0x0F) i))]).
Proof.
  destruct (Z.eq_dec (Z.land controls 0x0F) 0) as [H0|Hne].
  - left. apply handle_buttons_idle. assumption.
  - right. destruct (handle_buttons_run controls self Hne) as (i & Hi & _ & ->).
    exists i. split; [assumption|]. rewrite press_button_run.
    unfold note_sends, port_open. destruct (midi_out self); reflexivity.
Qed.
End GuiTraces.

Section GuiForms.
Import gui_main.

Lemma play_log open (a : action) (tail : list effect) :
  play open (log_action a :: tail) =
  (if open then [send_message [0x90; action_note a; 127];
                 send_message [0x80; action_note a; 0]] else [])
  ++ log_action a :: play open tail.
Proof. cbn [play flat_map]. rewrite <- app_assoc. reflexivity. Qed.

Lemma note_sends_bridge port position note :
  note_sends (bridge port position) note =
  if is_open port then [send_message [0x90; note; 127]; send_message [0x80; note; 0]]
  else [].
Proof. reflexivity. Qed.

(** The rocker stage on a bridge: its new position and its log do not
    depend on the MIDI port. *)
Lemma rocker_form controls act cur :
  exists p' L,
    (p' = cur /\ L = []
     \/ p' <> cur
        /\ (p' = "VFO A" \/ p' = "XIT/RIT" \/ p' = "VFO B")%string
        /\ L = [log_action (RockerAction p' (rocker_note p')); rocker_display p'])
    /\ (detect_rocker_position_from_event controls act (bridge None cur) = None ->
        p' = cur)
    /\ forall port,
         handle_rocker controls act (bridge port cur) =
         (tt, bridge port p', play (is_open port) L).
Proof.
  destruct (detect_rocker_position_from_event controls act (bridge None cur))
    as [p|] eqn:Hd.
  - destruct (String.eqb_spec p cur) as [->|Hne].
    + exists cur, []. split; [left; auto|]. split; [discriminate|].
      intros port. rewrite handle_rocker_trace.
      change (detect_rocker_position_from_event controls act (bridge port cur))
        with (detect_rocker_position_from_event controls act (bridge None cur)).
      rewrite Hd. cbn [current_rocker bridge]. rewrite String.eqb_refl. reflexivity.
    + exists p, [log_action (RockerAction p (rocker_note p)); rocker_display p].
      split; [right; split; [assumption|split; [|reflexivity]]|].
      { eapply detect_range. eassumption. }
      split; [discriminate|].
      intros port. rewrite handle_rocker_trace.
      change (detect_rocker_position_from_event controls act (bridge port cur))
        with (detect_rocker_position_from_event controls act (bridge None cur)).
      rewrite Hd. cbn [current_rocker bridge].
      destruct (String.eqb_spec p cur); [contradiction|].
      rewrite play_log. reflexivity.
  - exists cur, []. split; [left; auto|]. split; [reflexivity|].
    intros port. rewrite handle_rocker_trace.
    change (detect_rocker_position_from_event controls act (bridge port cur))
      with (detect_rocker_position_from_event controls act (bridge None cur)).
    rewrite Hd. reflexivity.
Qed.

Lemma encoder_form ticks cur port :
  handle_encoder ticks (bridge port cur) =
  (tt, bridge port cur,
   play (is_open port)
     (concat (replicate (Z.to_nat (Z.abs ticks))
        [log_action (if 0 <? ticks
                     then EncoderCW (encoder_note (bridge None cur) ticks) cur
                     else EncoderCCW (encoder_note (bridge None cur) ticks) cur)]))).
Proof.
  rewrite handle_encoder_run. f_equal.
  change (is_open port) with (port_open (bridge port cur)).
  rewrite blocks_play. destruct (0 <? ticks); reflexivity.
Qed.

(** The button stage: nothing, or the one action of the lowest set bit,
    the same for every bridge. *)
Lemma buttons_form controls :
  exists L,
    (Z.land controls 0x0F = 0 /\ L = []
     \/ Z.land controls 0x0F <> 0 /\
        exists i, 0 <= i < 4 /\ lowest_set_bit (Z.land controls 0x0F) i /\
          L = [log_action (ButtonAction (tap_hold_of controls) (i + 1)
                 (button_note (tap_hold_of controls) (Z.land controls 0x0F) i))])
    /\ forall self,
         handle_buttons controls self = (tt, self, play (port_open self) L).
Proof.
  destruct (Z.eq_dec (Z.land controls 0x0F) 0) as [H0|Hne].
  - exists []. split; [left; auto|]. intros self. apply handle_buttons_idle. assumption.
  - destruct (handle_buttons_run controls (bridge None "UNKNOWN") Hne)
      as (i & Hi & Hlow & _).
    eexists. split; [right; split; [assumption|]; exists i; eauto|].
    intros self. destruct (handle_buttons_run controls self Hne) as (i' & _ & Hlow' & ->).
    rewrite (lowest_set_bit_unique _ _ _ Hlow' Hlow), press_button_run, play_log.
    unfold port_open. destruct (midi_out self); reflexivity.
Qed.
End GuiForms.

Section GuiLogs.
Import gui_main.

Lemma rocker_logged_app t1 t2 :
  rocker_logged (t1 ++ t2) = rocker_logged t1 ++ rocker_logged t2.
Proof. apply flat_map_app. Qed.

Lemma worker_log_nil cur : worker_log cur [cur] [].
Proof.
  unfold worker_log. cbn [changes]. rewrite String.eqb_refl.
  repeat split; constructor.
Qed.

Lemma changes_cons cur p ps : changes cur (p :: ps) = changes cur [p] ++ changes p ps.
Proof. cbn [changes]. rewrite app_nil_r. reflexivity. Qed.

Lemma worker_log_app cur p ps L1 L2 :
  worker_log cur [p] L1 -> worker_log p ps L2 -> worker_log cur (p :: ps) (L1 ++ L2).
Proof.
  intros (Hn1 & Hd1 & Hr1 & Ha1) (Hn2 & Hd2 & Hr2 & Ha2). unfold worker_log.
  rewrite non_midi_app, displays_app, rocker_logged_app, actions_app, changes_cons.
  rewrite Hn1, Hn2, Hr1, Hr2, Hd1, Hd2. repeat split. apply Forall_app. auto.
Qed.

(** A log without displays nor rocker actions adds to a log of the same
    positions. *)
Lemma worker_log_extend cur ps L1 L2 :
  worker_log cur ps L1 ->
  non_midi L2 = L2 -> displays L2 = [] -> rocker_logged L2 = [] ->
  Forall action_ok (actions L2) ->
  worker_log cur ps (L1 ++ L2).
Proof.
  intros (Hn1 & Hd1 & Hr1 & Ha1) Hn2 Hd2 Hr2 Ha2. unfold worker_log.
  rewrite non_midi_app, displays_app, rocker_logged_app, actions_app.
  rewrite Hn1, Hn2, Hr1, Hr2, Hd1, Hd2, !app_nil_r. repeat split.
  apply Forall_app. auto.
Qed.

Lemma rocker_note_detected p :
  detected p -> ROCKER_POSITION_NOTES !! p = Some (rocker_note p).
Proof. intros [->|[->| ->]]; vm_compute; reflexivity. Qed.

Lemma encoder_logs k (a : action) :
  non_midi (concat (replicate k [log_action a])) = concat (replicate k [log_action a])
  /\ displays (concat (replicate k [log_action a])) = []
  /\ actions (concat (replicate k [log_action a])) = replicate k a.
Proof.
  induction k as [|k (IH1 & IH2 & IH3)]; [repeat split|].
  cbn [replicate concat]. rewrite non_midi_app, displays_app, actions_app, IH1, IH2, IH3.
  repeat split.
Qed.

Lemma encoder_logs_rocker k (a : action) :
  match a with RockerAction _ _ => False | _ => True end ->
  rocker_logged (concat (replicate k [log_action a])) = [].
Proof.
  intros Ha. induction k as [|k IH]; [reflexivity|].
  cbn [replicate concat]. rewrite rocker_logged_app, IH.
  destruct a; [destruct Ha | reflexivity ..].
Qed.

(** The notes of the two modes do not overlap. *)
Lemma button_note_mode_range mode bb i :
  0 < bb < 16 -> 0 <= i < 4 ->
  match mode with
  | TAP => 64 <= button_note mode bb i <= 71
  | HOLD => 72 <= button_note mode bb i <= 79
  end.
Proof.
  intros Hbb Hi. unfold button_note.
  small_cases bb 16%nat; eval_lookups; destruct mode; lia.
Qed.

Lemma poll_cycle_skip response self :
  malformed response -> poll_cycle response self = (tt, self, []).
Proof.
  intros Hbad.
  destruct response as [[|r0 [|r1 [|r2 [|r3 [|r4 [|r5 [|r6 [|r7 [|r8 r]]]]]]]]]|];
    try reflexivity.
  unfold poll_cycle.
  destruct (Z.eqb_spec (byte_to_Z r0) KPOD_USB_CMD_UPDATE) as [Hecho|_];
    [|reflexivity].
  exfalso. destruct Hbad as [Hlen|Hhead]; [apply Hlen; reflexivity|].
  apply Hhead. cbn. f_equal. apply byte_to_Z_inj. exact Hecho.
Qed.

Lemma response_cases response :
  malformed response
  \/ exists r1 r2 r3 r4 r5 r6 r7, response = Some [x75; r1; r2; r3; r4; r5; r6; r7].
Proof.
  destruct response as [[|r0 [|r1 [|r2 [|r3 [|r4 [|r5 [|r6 [|r7 [|r8 r]]]]]]]]]|];
    try (left; cbn; first [exact I | left; discriminate]).
  destruct (Z.eq_dec (byte_to_Z r0) (byte_to_Z x75)) as [Heq|Hne].
  - apply byte_to_Z_inj in Heq. subst r0. right. eauto 10.
  - left. right. cbn. intros [= ->]. apply Hne. reflexivity.
Qed.

(** One cycle on a bridge: the new position and the log depend on the
    response and the position only; the trace is the log played on the
    port. *)
Lemma cycle_form response cur :
  exists p' L,
    worker_log cur [p'] L /\ (p' = cur \/ detected p')
    /\ forall port,
         poll_cycle response (bridge port cur) =
         (tt, bridge port p', play (is_open port) L).
Proof.
  destruct (response_cases response) as [Hbad|(r1 & r2 & r3 & r4 & r5 & r6 & r7 & ->)].
  - exists cur, []. split; [apply worker_log_nil|]. split; [left; reflexivity|].
    intros port. apply poll_cycle_skip. assumption.
  - set (ticks := unpack_h r1 r2). set (controls := byte_to_Z r3).
    destruct (rocker_form controls (has_activity_of ticks controls) cur)
      as (p' & LR & HLR & _ & Hrk).
    destruct (buttons_form controls) as (LB & HLB & Hbt).
    set (a := if 0 <? ticks
              then EncoderCW (encoder_note (bridge None p') ticks) p'
              else EncoderCCW (encoder_note (bridge None p') ticks) p').
    set (LE := concat (replicate (Z.to_nat (Z.abs ticks)) [log_action a])).
    exists p', (LR ++ LE ++ LB).
    assert (Hpos : p' = cur \/ detected p').
    { destruct HLR as [[-> _]|(_ & Hdet & _)]; [left | right]; auto. }
    split; [|split; [assumption|]].
    + rewrite app_assoc. apply worker_log_extend; [apply worker_log_extend|..].
      * destruct HLR as [[-> ->]|(Hne & Hdet & ->)]; [apply worker_log_nil|].
        unfold worker_log. cbn [changes].
        destruct (String.eqb_spec p' cur); [contradiction|].
        repeat split. constructor; [|constructor].
        apply rocker_note_detected. assumption.
      * apply encoder_logs.
      * apply encoder_logs.
      * apply encoder_logs_rocker. subst a. destruct (0 <? ticks); exact I.
      * unfold LE. destruct (encoder_logs (Z.to_nat (Z.abs ticks)) a) as (_ & _ & ->).
        apply Forall_replicate. subst a. unfold encoder_note, get_encoder_notes.
        cbn [current_rocker bridge].
        destruct (0 <? ticks); cbn [action_ok];
          destruct (p' =? "XIT/RIT")%string; reflexivity.
      * destruct HLB as [[_ ->]|(_ & i & _ & _ & ->)]; reflexivity.
      * destruct HLB as [[_ ->]|(_ & i & _ & _ & ->)]; reflexivity.
      * destruct HLB as [[_ ->]|(_ & i & _ & _ & ->)]; reflexivity.
      * destruct HLB as [[_ ->]|(Hne & i & Hi & _ & ->)]; [constructor|].
        constructor; [|constructor]. split; [lia|].
        apply button_note_mode_range; [|assumption].
        pose proof (land_15_range controls). lia.
    + intros port. rewrite poll_cycle_run. fold ticks controls.
      rewrite Hrk. cbn [state_of trace_of fst snd].
      rewrite encoder_form, Hbt. cbn [trace_of snd port_open bridge midi_out].
      rewrite !play_app. reflexivity.
Qed.
End GuiLogs.

Section GuiRuns.
Import gui_main.

Lemma bridge_eta self : self = bridge (midi_out self) (current_rocker self).
Proof. destruct self; reflexivity. Qed.

(** A run of the worker on a bridge: the positions and the log depend on
    the responses and the first position only; the trace is the log played
    on the port. *)
Lemma worker_form responses : forall cur,
  exists ps L q,
    worker_log cur ps L
    /\ Forall (fun p => p = cur \/ detected p) ps
    /\ forall port,
         kpod_worker responses (bridge port cur) =
           (tt, bridge port q, play (is_open port) L)
         /\ positions responses (bridge port cur) = ps.
Proof.
  induction responses as [|r rest IH]; intros cur.
  - exists [], [], cur. split; [repeat split; constructor|]. split; [constructor|].
    intros port. split; reflexivity.
  - destruct (cycle_form r cur) as (p' & L1 & Hlog1 & Hp' & Hcycle).
    destruct (IH p') as (ps & L2 & q & Hlog2 & Hps & Hrest).
    exists (p' :: ps), (L1 ++ L2), q.
    split; [apply worker_log_app; assumption|]. split.
    + constructor; [assumption|].
      eapply Forall_impl; [exact Hps|]. cbn beta.
      intros p [->|Hd]; [assumption | right; assumption].
    + intros port. destruct (Hrest port) as [Hrun Hpos].
      cbn [kpod_worker positions]. rewrite bind_run, Hcycle.
      cbn [result state_of trace_of fst snd current_rocker bridge].
      fold (bridge port p'). rewrite Hrun, Hpos, play_app. split; reflexivity.
Qed.

Lemma midi_sent_play_open L :
  midi_sent (play true L) = flat_map (fun a => note_pair (action_note a) 127) (actions L).
Proof.
  induction L as [|e L IH]; [reflexivity|].
  change (e :: L) with ([e] ++ L).
  rewrite play_app, midi_sent_app, actions_app, flat_map_app, IH.
  destruct e; reflexivity.
Qed.

Lemma midi_sent_play_closed L : midi_sent (play false L) = [].
Proof.
  induction L as [|e L IH]; [reflexivity|].
  change (e :: L) with ([e] ++ L). rewrite play_app, midi_sent_app, IH.
  destruct e; reflexivity.
Qed.

Lemma observe_play open L :
  actions (play open L) = actions L
  /\ displays (play open L) = displays L
  /\ non_midi (play open L) = non_midi L.
Proof.
  induction L as [|e L (IH1 & IH2 & IH3)]; [repeat split|].
  change (e :: L) with ([e] ++ L).
  rewrite !play_app, !actions_app, !displays_app, !non_midi_app, IH1, IH2, IH3.
  destruct e; destruct open; repeat split.
Qed.

Lemma detected_not_unknown p : detected p -> p <> "UNKNOWN"%string.
Proof. intros [->|[->| ->]]; discriminate. Qed.

(** X6. However the worker runs, the tracked position is the one it
    started with or one of VFO A, VFO B, XIT/RIT; once it is not UNKNOWN
    it is never UNKNOWN again. *)
Theorem X6_position_never_back_to_unknown responses self :
  Forall (fun p => p = current_rocker self \/ detected p) (positions responses self)
  /\ (current_rocker self <> "UNKNOWN"%string ->
      Forall (fun p => p <> "UNKNOWN"%string) (positions responses self)).
Proof.
  destruct (worker_form responses (current_rocker self)) as (ps & L & q & _ & Hps & Hrun).
  destruct (Hrun (midi_out self)) as [_ Hpos]. rewrite <- bridge_eta in Hpos.
  rewrite Hpos. split; [assumption|].
  intros Hknown. eapply Forall_impl; [exact Hps|]. cbn beta.
  intros p [->|Hd]; [assumption | apply detected_not_unknown; assumption].
Qed.

(** X6 at work: from VFO A, an idle report, a report with a button and a
    rejected response. *)
Lemma X6_position_never_back_to_unknown_witness :
  Forall (fun p => p <> "UNKNOWN"%string)
    (positions [report x75 x00 x00 x00; report x75 x00 x00 x01; Some [x00]]
       (connected_at "VFO A")).
Proof.
  refine (proj2 (X6_position_never_back_to_unknown _ (connected_at "VFO A")) _).
  discriminate.
Defined.

(** X11. Every action the worker logs is as follows: a rocker action
    carries the note of its position in the table of rocker notes; an
    encoder action carries note 100 (clockwise) or 101, and 102 or 103 at
    XIT/RIT, for the position it names; a button action carries a button
    number in 1..4 and a note in 64..71 for TAP, in 72..79 for HOLD. *)
Theorem X11_logged_actions responses self :
  Forall action_ok (actions (trace_of (kpod_worker responses self))).
Proof.
  destruct (worker_form responses (current_rocker self))
    as (ps & L & q & (_ & _ & _ & Hok) & _ & Hrun).
  destruct (Hrun (midi_out self)) as [Hrun' _]. rewrite <- bridge_eta in Hrun'.
  rewrite Hrun'. cbn [trace_of snd].
  destruct (observe_play (is_open (midi_out self)) L) as (-> & _). assumption.
Qed.

(** X8. With a MIDI port open, the Note-On/Note-Off pair of each logged
    action is sent just before the action is logged, and nothing else is
    sent: the MIDI stream of a run is the sequence of the pairs of the notes
    of the logged actions. *)
Theorem X8_log_matches_midi responses self port :
  midi_out self = Some port ->
  trace_of (kpod_worker responses self)
    = play true (non_midi (trace_of (kpod_worker responses self)))
  /\ midi_sent (trace_of (kpod_worker responses self))
     = flat_map (fun a => note_pair (action_note a) 127)
         (actions (trace_of (kpod_worker responses self))).
Proof.
  intros Hport.
  destruct (worker_form responses (current_rocker self))
    as (ps & L & q & (Hnm & _) & _ & Hrun).
  destruct (Hrun (midi_out self)) as [Hrun' _]. rewrite <- bridge_eta in Hrun'.
  rewrite Hrun', Hport. cbn [trace_of snd is_open].
  destruct (observe_play true L) as (-> & _ & ->). rewrite Hnm.
  split; [reflexivity | apply midi_sent_play_open].
Qed.

(** X8 at work: a turn of two ticks and a button at VFO A. *)
Lemma X8_log_matches_midi_witness :
  midi_sent (trace_of (kpod_worker [report x75 x02 x00 x41] (connected_at "VFO A")))
  = flat_map (fun a => note_pair (action_note a) 127)
      [EncoderCW 100 "VFO A"; EncoderCW 100 "VFO A"; ButtonAction TAP 1 64].
Proof.
  exact (proj2 (X8_log_matches_midi [report x75 x02 x00 x41]
                  (connected_at "VFO A") 0%nat eq_refl)).
Defined.

(** X9. Without a MIDI port the worker sends nothing, yet it tracks the
    same positions and logs and displays the same as with a port: its log
    reports notes that were not sent. *)
Theorem X9_no_port_same_log responses cur port :
  midi_sent (trace_of (kpod_worker responses (bridge None cur))) = []
  /\ trace_of (kpod_worker responses (bridge None cur))
     = non_midi (trace_of (kpod_worker responses (bridge port cur)))
  /\ positions responses (bridge None cur) = positions responses (bridge port cur).
Proof.
  destruct (worker_form responses cur) as (ps & L & q & (Hnm & _) & _ & Hrun).
  destruct (Hrun None) as [Hrun0 Hpos0]. destruct (Hrun port) as [Hrun1 Hpos1].
  rewrite Hrun0, Hrun1, Hpos0, Hpos1. cbn [trace_of snd is_open].
  destruct (observe_play (is_open port) L) as (_ & _ & ->).
  split; [apply midi_sent_play_closed|]. split; [|reflexivity].
  clear. induction L as [|e L IH]; [reflexivity|].
  change (e :: L) with ([e] ++ L). rewrite play_app, non_midi_app, IH.
  destruct e; reflexivity.
Qed.
End GuiRuns.

Section GuiChanges.
Import gui_main.

Lemma rocker_table p note :
  ROCKER_POSITION_NOTES !! p = Some note ->
  detected p /\ rocker_note p = note /\ 110 <= note <= 112.
Proof.
  intros Hp. unfold rocker_note. rewrite Hp. cbn [default].
  apply elem_of_list_to_map_2 in Hp. rewrite !elem_of_cons, elem_of_nil in Hp.
  unfold detected.
  destruct Hp as [Hp|[Hp|[Hp|[]]]]; injection Hp as -> ->; repeat split; auto; lia.
Qed.

Lemma action_ok_note a : action_ok a -> gui_note (action_note a).
Proof.
  unfold gui_note. destruct a as [p n|n p|n p|mode num n]; cbn [action_ok action_note].
  - intros Hp. apply rocker_table in Hp. lia.
  - intros ->. destruct (p =? "XIT/RIT")%string; lia.
  - intros ->. destruct (p =? "XIT/RIT")%string; lia.
  - intros [_ Hn]. destruct mode; lia.
Qed.

Lemma rocker_msgs_play L :
  Forall action_ok (actions L) ->
  msgs_in 110 112 (midi_sent (play true L))
  = flat_map (fun p => note_pair (rocker_note p) 127) (rocker_logged L)
  /\ Forall detected (rocker_logged L).
Proof.
  induction L as [|e L IH]; [split; [reflexivity | constructor]|].
  change (e :: L) with ([e] ++ L).
  rewrite actions_app, play_app, midi_sent_app, msgs_in_app, rocker_logged_app, flat_map_app.
  intros Hok. apply Forall_app in Hok as [He HL]. destruct (IH HL) as [-> Hdet].
  destruct e as [msg|a|p]; [split; [reflexivity | assumption] | | split; [reflexivity | assumption]].
  apply Forall_cons in He as [Ha _].
  change (midi_sent (play true [log_action a])) with (note_pair (action_note a) 127).
  destruct a as [p n|n p|n p|mode num n]; cbn [action_ok action_note] in *.
  - apply rocker_table in Ha as (Hp & Hnote & Hrange).
    rewrite msgs_in_pair_inside by assumption.
    cbn [rocker_logged flat_map app]. rewrite Hnote, app_nil_r.
    split; [reflexivity | constructor; assumption].
  - rewrite msgs_in_pair_outside; [split; [reflexivity | assumption]|].
    subst n. destruct (p =? "XIT/RIT")%string; lia.
  - rewrite msgs_in_pair_outside; [split; [reflexivity | assumption]|].
    subst n. destruct (p =? "XIT/RIT")%string; lia.
  - rewrite msgs_in_pair_outside; [split; [reflexivity | assumption]|].
    destruct Ha as [_ Hn]. destruct mode; lia.
Qed.

(** X7. Over a run, the rocker display is updated exactly at the changes
    of the tracked position, in order, each time with one of VFO A, VFO B,
    XIT/RIT (a name the display table and the rocker note table both hold);
    with a MIDI port open, the messages on the rocker notes 110..112 are
    exactly the pairs of the notes of those changes. *)
Theorem X7_display_and_note_at_each_change responses self :
  let changed := changes (current_rocker self) (positions responses self) in
  let t := trace_of (kpod_worker responses self) in
  displays t = changed
  /\ Forall detected changed
  /\ (forall p, detected p ->
        is_Some (display_names !! p) /\ 110 <= rocker_note p <= 112)
  /\ (midi_out self <> None ->
      msgs_in 110 112 (midi_sent t)
      = flat_map (fun p => note_pair (rocker_note p) 127) changed).
Proof.
  intros changed t. subst changed t.
  destruct (worker_form responses (current_rocker self))
    as (ps & L & q & (Hnm & Hdisp & Hrl & Hok) & _ & Hrun).
  destruct (Hrun (midi_out self)) as [Hrun' Hpos]. rewrite <- bridge_eta in Hrun', Hpos.
  rewrite Hrun', Hpos. cbn [trace_of snd].
  destruct (observe_play (is_open (midi_out self)) L) as (_ & -> & _).
  destruct (rocker_msgs_play L Hok) as [Hmsgs Hdet].
  rewrite Hrl, Hdisp in Hmsgs, Hdet.
  split; [assumption|]. split; [assumption|]. split.
  - intros p [->|[->| ->]]; (split; [eexists; vm_compute; reflexivity | vm_compute; split; congruence]).
  - intros Hport. destruct (midi_out self); [|contradiction]. exact Hmsgs.
Qed.

(** X7 at work: left, idle, right, right again. *)
Lemma X7_display_and_note_at_each_change_witness :
  msgs_in 110 112 (midi_sent (trace_of (kpod_worker
    [report x75 x00 x00 x40; report x75 x00 x00 x00;
     report x75 x01 x00 x20; report x75 x01 x00 x20] (init (Some 0%nat)))))
  = flat_map (fun p => note_pair (rocker_note p) 127)
      ["VFO A"; "VFO B"; "XIT/RIT"]%string.
Proof.
  refine (proj2 (proj2 (proj2 (X7_display_and_note_at_each_change _ (init (Some 0%nat))))) _).
  discriminate.
Defined.

Lemma idle_cycle port cur :
  poll_cycle (report x75 x00 x00 x00) (bridge port cur) =
  if (cur =? "VFO B")%string || (cur =? "UNKNOWN")%string
  then (tt, bridge port cur, [])
  else (tt, bridge port "VFO B",
        note_sends (bridge port cur) 111 ++
        [log_action (RockerAction "VFO B" 111); rocker_display "VFO B"]).
Proof.
  unfold report. rewrite poll_cycle_run.
  change (unpack_h x00 x00) with 0. change (byte_to_Z x00) with 0.
  rewrite handle_rocker_trace.
  change (detect_rocker_position_from_event 0 (has_activity_of 0 0) (bridge port cur))
    with (if negb ((cur =? "VFO B")%string || ((cur =? "UNKNOWN")%string || false))
          then Some "VFO B"%string else None).
  rewrite orb_false_r.
  destruct (String.eqb_spec cur "VFO B") as [->|HB]; [reflexivity|].
  destruct (String.eqb_spec cur "UNKNOWN") as [->|HU]; [reflexivity|].
  cbn [orb negb current_rocker bridge].
  destruct (String.eqb_spec "VFO B" cur) as [<-|_]; [contradiction|].
  cbn [state_of trace_of fst snd].
  rewrite handle_encoder_run, handle_buttons_idle by reflexivity.
  cbn [trace_of snd]. change (Z.to_nat (Z.abs 0)) with 0%nat.
  cbn [replicate concat]. rewrite !app_nil_r. reflexivity.
Qed.

(** X12. The idle report (control byte 0x00, no ticks) is idempotent: it
    leaves UNKNOWN and VFO B alone, moves any other position to VFO B with
    the one note 111, and a second idle report then changes nothing and
    sends nothing. *)
Theorem X12_idle_report_idempotent self :
  let idle := report x75 x00 x00 x00 in
  let self1 := state_of (poll_cycle idle self) in
  poll_cycle idle self1 = (tt, self1, [])
  /\ current_rocker self1 =
     (if (current_rocker self =? "VFO B")%string
         || (current_rocker self =? "UNKNOWN")%string
      then current_rocker self else "VFO B"%string)
  /\ midi_sent (trace_of (poll_cycle idle self)) =
     (if (current_rocker self =? "VFO B")%string
         || (current_rocker self =? "UNKNOWN")%string
      then [] else if port_open self then note_pair 111 127 else []).
Proof.
  intros idle self1. subst idle self1.
  rewrite (bridge_eta self). cbn [current_rocker bridge]. rewrite !idle_cycle.
  destruct (String.eqb_spec (current_rocker self) "VFO B") as [HB|HB].
  - cbn [orb state_of fst snd trace_of]. rewrite idle_cycle, HB. repeat split.
  - destruct (String.eqb_spec (current_rocker self) "UNKNOWN") as [HU|HU].
    + cbn [orb state_of fst snd trace_of]. rewrite idle_cycle, HU. repeat split.
    + cbn [orb state_of fst snd trace_of]. rewrite idle_cycle. cbn.
      repeat split. unfold note_sends, port_open. cbn [midi_out bridge].
      destruct (midi_out self); reflexivity.
Qed.
End GuiChanges.

Section GuiNoChange.
Import gui_main.

(** X13. A report whose rocker bits are neither 10 nor 01 and whose control
    byte is not 0x00 (both rocker bits set, or rocker bits 00 together with
    a button, hold or top bit) never moves the tracked position: no rocker
    action is logged and the display is not updated. *)
Theorem X13_position_kept r1 r2 r3 r4 r5 r6 r7 self :
  let controls := byte_to_Z r3 in
  let run := poll_cycle (Some [x75; r1; r2; r3; r4; r5; r6; r7]) self in
  Z.land (Z.shiftr controls 5) 0x03 <> 2 ->
  Z.land (Z.shiftr controls 5) 0x03 <> 1 ->
  controls <> 0 ->
  state_of run = self
  /\ displays (trace_of run) = []
  /\ rocker_logged (trace_of run) = []
  /\ msgs_in 110 112 (midi_sent (trace_of run)) = [].
Proof.
  intros controls run H2 H1 H0. subst run.
  rewrite (bridge_eta self).
  set (port := midi_out self). set (cur := current_rocker self).
  set (ticks := unpack_h r1 r2).
  assert (Hd : forall act, detect_rocker_position_from_event controls act
                 (bridge None cur) = None).
  { intros act. unfold detect_rocker_position_from_event.
    destruct (Z.eqb_spec (Z.land (Z.shiftr controls 5) 3) 2); [contradiction|].
    destruct (Z.eqb_spec (Z.land (Z.shiftr controls 5) 3) 1); [contradiction|].
    destruct (Z.eqb_spec controls 0); [contradiction|]. reflexivity. }
  destruct (rocker_form controls (has_activity_of ticks controls) cur)
    as (p' & LR & HLR & Hkeep & Hrk).
  specialize (Hkeep (Hd _)). subst p'.
  destruct HLR as [[_ ->]|(Hne & _)]; [|contradiction].
  destruct (buttons_form controls) as (LB & HLB & Hbt).
  rewrite poll_cycle_run. fold ticks controls.
  rewrite Hrk. cbn [state_of trace_of fst snd play flat_map app].
  rewrite encoder_form, Hbt. cbn [trace_of snd port_open bridge midi_out].
  rewrite <- play_app.
  set (L := concat _ ++ LB).
  assert (HL : displays L = [] /\ rocker_logged L = [] /\ Forall action_ok (actions L)).
  { subst L. rewrite displays_app, rocker_logged_app, actions_app.
    destruct (encoder_logs (Z.to_nat (Z.abs ticks))
                (if 0 <? ticks
                 then EncoderCW (encoder_note (bridge None cur) ticks) cur
                 else EncoderCCW (encoder_note (bridge None cur) ticks) cur))
      as (_ & -> & ->).
    rewrite encoder_logs_rocker by (destruct (0 <? ticks); exact I).
    assert (HB : displays LB = [] /\ rocker_logged LB = [] /\ Forall action_ok (actions LB)).
    { destruct HLB as [[_ ->]|(Hne & i & Hi & _ & ->)];
        [repeat split; constructor|].
      repeat split. constructor; [|constructor]. split; [lia|].
      apply button_note_mode_range; [|assumption].
      pose proof (land_15_range controls). lia. }
    destruct HB as (-> & -> & HBok). repeat split.
    apply Forall_app. split; [|assumption].
    apply Forall_replicate. unfold encoder_note, get_encoder_notes.
    cbn [current_rocker bridge].
    destruct (0 <? ticks); cbn [action_ok];
      destruct (cur =? "XIT/RIT")%string; reflexivity. }
  destruct HL as (Hdisp & Hrl & Hok).
  change (port_open (bridge port cur)) with (is_open port).
  destruct (observe_play (is_open port) L) as (_ & -> & _).
  split; [reflexivity|]. split; [assumption|]. split.
  - clear - Hrl. induction L as [|e L IH]; [reflexivity|].
    change (e :: L) with ([e] ++ L) in *.
    rewrite play_app, rocker_logged_app in *.
    apply app_eq_nil in Hrl as [He HL]. rewrite (IH HL), app_nil_r.
    destruct e as [m|[]|]; try reflexivity; try discriminate He;
      destruct (is_open port); reflexivity.
  - destruct port as [n|]; cbn [is_open].
    + destruct (rocker_msgs_play L Hok) as [-> _]. rewrite Hrl. reflexivity.
    + rewrite midi_sent_play_closed. reflexivity.
Qed.

(** X13 at work: both rocker bits set, with a tick, at VFO A. *)
Lemma X13_position_kept_witness :
  state_of (poll_cycle (report x75 x01 x00 x60) (connected_at "VFO A"))
  = connected_at "VFO A".
Proof.
  refine (proj1 (X13_position_kept x01 x00 x60 x00 x00 x00 x00 (connected_at "VFO A")
                   _ _ _)); discriminate.
Defined.
End GuiNoChange.

(** ** The scripts kpod.py and kpodalt.py *)

Section Scripts.

Lemma rocker_note_map_center k :
  k <> 0x40 -> k <> 0x20 -> default (102, 103) (kpod.ROCKER_NOTE_MAP !! k) = (102, 103).
Proof.
  intros H40 H20. destruct (kpod.ROCKER_NOTE_MAP !! k) as [[a b]|] eqn:Hk; [|reflexivity].
  apply elem_of_list_to_map_2 in Hk. rewrite !elem_of_cons, elem_of_nil in Hk.
  destruct Hk as [Hk|[Hk|[Hk|[]]]]; injection Hk as -> -> ->;
    first [reflexivity | contradiction].
Qed.

(** The notes of the tick loop after the rocker detection on [flags] are
    those of [flags] alone. *)
Lemma detect_rocker_notes flags st :
  default (102, 103)
    (kpod.ROCKER_NOTE_MAP !! kpod.current_rocker (state_of (kpod.detect_rocker flags st)))
  = script_encoder_notes flags.
Proof.
  unfold kpod.detect_rocker, script_encoder_notes. rewrite bind_state.
  cbn [get_state result state_of fst snd].
  destruct (negb (Z.land flags 64 =? 0)); [reflexivity|].
  destruct (negb (Z.land flags 32 =? 0)); [reflexivity|].
  destruct (Z.eqb_spec (kpod.current_rocker st) 64) as [H40|H40]; [reflexivity|].
  destruct (Z.eqb_spec (kpod.current_rocker st) 32) as [H20|H20]; [reflexivity|].
  cbn [orb state_of mret prog_ret fst snd]. apply rocker_note_map_center; assumption.
Qed.

Lemma kpod_send_ticks_trace ticks st :
  kpod.send_ticks ticks st =
  (tt, st,
   note_pairs (Z.to_nat (Z.abs ticks))
     (if 0 <? ticks
      then fst (default (102, 103) (kpod.ROCKER_NOTE_MAP !! kpod.current_rocker st))
      else snd (default (102, 103) (kpod.ROCKER_NOTE_MAP !! kpod.current_rocker st)))).
Proof.
  unfold kpod.send_ticks. rewrite bind_run.
  cbn [get_state result state_of trace_of fst snd app].
  destruct (default (102, 103) (kpod.ROCKER_NOTE_MAP !! kpod.current_rocker st))
    as [cw ccw]. cbn [fst snd].
  destruct (Z.ltb_spec 0 ticks) as [Hpos|Hnpos].
  - erewrite for_range_run by apply kpod_send_note_run.
    rewrite kpod_note_pairs, Z.abs_eq by lia. reflexivity.
  - destruct (Z.ltb_spec ticks 0) as [Hneg|Hzero].
    + erewrite for_range_run by apply kpod_send_note_run.
      rewrite kpod_note_pairs. reflexivity.
    + replace ticks with 0 by lia. reflexivity.
Qed.

(** One cycle of kpod.py on a response of 8 bytes. *)
Lemma kpod_cycle_trace r0 r1 r2 r3 r4 r5 r6 r7 st :
  let ticks := unpack_h r1 r2 in
  let flags := byte_to_Z r3 in
  let run := kpod.poll_cycle (Some [r0; r1; r2; r3; r4; r5; r6; r7]) st in
  trace_of run =
    note_pairs (Z.to_nat (Z.abs ticks)) (script_encoder_note flags ticks)
    ++ script_button_part flags (kpod.last_flags st)
  /\ kpod.last_flags (state_of run) = flags.
Proof.
  intros ticks flags run. subst run. unfold kpod.poll_cycle. fold ticks flags.
  rewrite !bind_run. cbn [result state_of trace_of fst snd].
  destruct (detect_rocker_run flags st) as [Htr Hlf].
  rewrite kpod_send_ticks_trace. cbn [result state_of trace_of fst snd].
  rewrite Htr, detect_rocker_notes, detect_buttons_run, Hlf. cbn [app].
  unfold script_encoder_note, script_button_part.
  destruct (Z.eqb_spec flags (kpod.last_flags st)) as [Heq|Hne];
    cbn [trace_of state_of fst snd kpod.last_flags].
  - split; [reflexivity|]. rewrite Hlf. auto.
  - split; reflexivity.
Qed.

Lemma kpodalt_send_note_run note velocity st :
  kpodalt.send_note note velocity st = (tt, st, note_pair note velocity).
Proof. reflexivity. Qed.

Lemma kpodalt_send_ticks_trace ticks st :
  kpodalt.send_ticks ticks st =
  (tt, st, note_pairs (Z.to_nat (Z.abs ticks)) (if 0 <? ticks then 100 else 101)).
Proof.
  unfold kpodalt.send_ticks.
  destruct (Z.ltb_spec 0 ticks) as [Hpos|Hnpos].
  - erewrite for_range_run by apply kpodalt_send_note_run.
    rewrite kpod_note_pairs, Z.abs_eq by lia. reflexivity.
  - destruct (Z.ltb_spec ticks 0) as [Hneg|Hzero].
    + erewrite for_range_run by apply kpodalt_send_note_run.
      rewrite kpod_note_pairs. reflexivity.
    + replace ticks with 0 by lia. reflexivity.
Qed.

(** One cycle of kpodalt.py on a response of 8 bytes. *)
Lemma kpodalt_cycle_trace r0 r1 r2 r3 r4 r5 r6 r7 st :
  let ticks := unpack_h r1 r2 in
  let flags := byte_to_Z r3 in
  kpodalt.poll_cycle (Some [r0; r1; r2; r3; r4; r5; r6; r7]) st =
  (tt, {| kpodalt.last_flags := flags |},
   note_pairs (Z.to_nat (Z.abs ticks)) (if 0 <? ticks then 100 else 101)
   ++ script_button_part flags (kpodalt.last_flags st)).
Proof.
  intros ticks flags. unfold kpodalt.poll_cycle. fold ticks flags.
  rewrite bind_run, kpodalt_send_ticks_trace. cbn [result state_of trace_of fst snd].
  unfold kpodalt.detect_buttons, script_button_part, flags_note.
  rewrite !bind_run. cbn [get_state result state_of trace_of fst snd app].
  change kpodalt.TAP_NOTE_MAP with kpod.TAP_NOTE_MAP.
  change kpodalt.HOLD_NOTE_MAP with kpod.HOLD_NOTE_MAP.
  destruct (flags =? kpodalt.last_flags st); cbn [negb]; [reflexivity|].
  destruct (kpod.TAP_NOTE_MAP !! flags), (kpod.HOLD_NOTE_MAP !! flags); reflexivity.
Qed.

(** A response of another length is skipped by both scripts. *)
Lemma script_response_cases response :
  (exists r0 r1 r2 r3 r4 r5 r6 r7, response = Some [r0; r1; r2; r3; r4; r5; r6; r7])
  \/ ((forall st, kpod.poll_cycle response st = (tt, st, []))
      /\ (forall st, kpodalt.poll_cycle response st = (tt, st, []))
      /\ rocker_left response).
Proof.
  destruct response as [[|r0 [|r1 [|r2 [|r3 [|r4 [|r5 [|r6 [|r7 [|r8 r]]]]]]]]]|];
    try (right; repeat split; intros; reflexivity).
  left. eauto 10.
Qed.
End Scripts.

Section ScriptTheorems.

Lemma script_encoder_note_range flags ticks :
  100 <= script_encoder_note flags ticks <= 105.
Proof.
  unfold script_encoder_note, script_encoder_notes.
  destruct (0 <? ticks), (negb (Z.land flags 64 =? 0)), (negb (Z.land flags 32 =? 0));
    cbn; lia.
Qed.

Lemma script_button_part_class flags last :
  button_msgs (script_button_part flags last) = script_button_part flags last
  /\ encoder_msgs (script_button_part flags last) = [].
Proof.
  unfold script_button_part. destruct (flags =? last); [split; reflexivity|].
  destruct (flags_note flags) as [n|] eqn:Hn; [|split; reflexivity].
  apply flags_note_range in Hn. split.
  - apply msgs_in_pair_inside. assumption.
  - apply msgs_in_pair_outside. lia.
Qed.

(** X14. In kpod.py the notes of the encoder ticks of a cycle depend on the
    rocker bits of that cycle's control byte only, never on the rocker state
    carried over: 100/101 when bit 6 is set (also with bit 5), else 104/105
    when bit 5 is set, else 102/103; the cycle sends [abs ticks] pairs on
    the note of the direction. *)
Theorem X14_script_encoder_notes_by_report r0 r1 r2 r3 r4 r5 r6 r7 st :
  let ticks := unpack_h r1 r2 in
  let flags := byte_to_Z r3 in
  encoder_msgs (trace_of (kpod.poll_cycle (Some [r0; r1; r2; r3; r4; r5; r6; r7]) st))
  = note_pairs (Z.to_nat (Z.abs ticks))
      (if 0 <? ticks
       then (if negb (Z.land flags 0x40 =? 0) then 100
             else if negb (Z.land flags 0x20 =? 0) then 104 else 102)
       else (if negb (Z.land flags 0x40 =? 0) then 101
             else if negb (Z.land flags 0x20 =? 0) then 105 else 103)).
Proof.
  intros ticks flags.
  destruct (kpod_cycle_trace r0 r1 r2 r3 r4 r5 r6 r7 st) as [Htrace _].
  fold ticks flags in Htrace. rewrite Htrace. unfold encoder_msgs.
  rewrite msgs_in_app.
  destruct (script_button_part_class flags (kpod.last_flags st)) as [_ Hbt].
  unfold encoder_msgs in Hbt. rewrite Hbt, app_nil_r.
  rewrite msgs_in_pairs_inside by apply script_encoder_note_range.
  f_equal. unfold script_encoder_note, script_encoder_notes.
  destruct (0 <? ticks), (negb (Z.land flags 64 =? 0)), (negb (Z.land flags 32 =? 0));
    reflexivity.
Qed.

Lemma flags_note_keys flags note :
  flags_note flags = Some note ->
  (0x41 <= flags <= 0x48 /\ note = flags - 1)
  \/ (0x51 <= flags <= 0x58 /\ note = flags - 9).
Proof.
  unfold flags_note.
  destruct (kpod.TAP_NOTE_MAP !! flags) eqn:Ht.
  - intros [= <-]. left. apply elem_of_list_to_map_2 in Ht.
    rewrite !elem_of_cons, elem_of_nil in Ht.
    repeat (destruct Ht as [Ht|Ht]; [injection Ht as -> ->; lia|]). destruct Ht.
  - destruct (kpod.HOLD_NOTE_MAP !! flags) eqn:Hh; [|discriminate].
    intros [= <-]. right. apply elem_of_list_to_map_2 in Hh.
    rewrite !elem_of_cons, elem_of_nil in Hh.
    repeat (destruct Hh as [Hh|Hh]; [injection Hh as -> ->; lia|]). destruct Hh.
Qed.

(** X15. In kpod.py a control byte has a button note only when its top
    three bits are 010 (rocker held left, bit 7 clear) and its low nibble is
    1..8; the note is then the one the GUI bridge looks up for that nibble
    and mode.  A cycle whose control byte has other top bits sends no button
    note. *)
Theorem X15_script_buttons_need_rocker_left r0 r1 r2 r3 r4 r5 r6 r7 st :
  let flags := byte_to_Z r3 in
  (forall note, flags_note flags = Some note ->
     Z.land flags 0xE0 = 0x40
     /\ 1 <= Z.land flags 0x0F <= 8
     /\ forall i, note = gui_main.button_note (gui_main.tap_hold_of flags)
                           (Z.land flags 0x0F) i)
  /\ (Z.land flags 0xE0 <> 0x40 ->
      button_msgs (trace_of
        (kpod.poll_cycle (Some [r0; r1; r2; r3; r4; r5; r6; r7]) st)) = []).
Proof.
  intros flags.
  assert (Hkeys : forall f note, flags_note f = Some note ->
            Z.land f 0xE0 = 0x40
            /\ 1 <= Z.land f 0x0F <= 8
            /\ forall i, note = gui_main.button_note (gui_main.tap_hold_of f)
                                  (Z.land f 0x0F) i).
  { intros f note Hnote. apply flags_note_keys in Hnote.
    assert (Hcases : exists k, (0 <= k < 8)%nat /\
              (f = 0x41 + Z.of_nat k /\ note = 64 + Z.of_nat k
               \/ f = 0x51 + Z.of_nat k /\ note = 72 + Z.of_nat k)).
    { destruct Hnote as [[Hr ->]|[Hr ->]].
      - exists (Z.to_nat (f - 0x41)). split; [lia|]. left. lia.
      - exists (Z.to_nat (f - 0x51)). split; [lia|]. right. lia. }
    destruct Hcases as (k & Hk & Hcase).
    do 8 (destruct k as [|k];
          [destruct Hcase as [[Hf Hn]|[Hf Hn]]; vm_compute in Hf, Hn; subst f note;
           (split; [reflexivity|]; split; [vm_compute; split; discriminate|];
            intros i; unfold gui_main.button_note;
            eval_lookups; reflexivity)|]).
    lia. }
  specialize (Hkeys flags).
  split; [exact Hkeys|].
  intros Htop. destruct (kpod_poll_cycle_buttons r0 r1 r2 r3 r4 r5 r6 r7 st) as [-> _].
  fold flags. destruct (flags =? kpod.last_flags st); [reflexivity|].
  destruct (flags_note flags) as [n|] eqn:Hn; [|reflexivity].
  destruct (Hkeys n eq_refl) as [Hx _]. contradiction.
Qed.

(** X15 at work: button 1 tapped with the rocker at the center. *)
Lemma X15_script_buttons_need_rocker_left_witness :
  button_msgs (trace_of (kpod.poll_cycle (report x75 x00 x00 x01) kpod.init)) = [].
Proof.
  refine (proj2 (X15_script_buttons_need_rocker_left x75 x00 x00 x01 x00 x00 x00 x00
                   kpod.init) _).
  discriminate.
Defined.
End ScriptTheorems.

Section ScriptVariants.

Lemma kpodalt_main_cons r rest st :
  trace_of (kpodalt.main (r :: rest) st) =
  trace_of (kpodalt.poll_cycle r st)
  ++ trace_of (kpodalt.main rest (state_of (kpodalt.poll_cycle r st))).
Proof. reflexivity. Qed.

Lemma kpod_main_cons r rest st :
  trace_of (kpod.main (r :: rest) st) =
  trace_of (kpod.poll_cycle r st)
  ++ trace_of (kpod.main rest (state_of (kpod.poll_cycle r st))).
Proof. reflexivity. Qed.

(** X16. kpodalt.py sends the same button notes as kpod.py on every
    sequence of responses, the two starting from the same previous control
    byte; its encoder ticks are always on notes 100 (clockwise) and 101,
    whatever the control byte. *)
Theorem X16_kpodalt_buttons_as_kpod responses st
    r0 r1 r2 r3 r4 r5 r6 r7 (alt : kpodalt.locals) :
  button_msgs (trace_of
    (kpodalt.main responses {| kpodalt.last_flags := kpod.last_flags st |}))
  = button_msgs (trace_of (kpod.main responses st))
  /\ encoder_msgs (trace_of
       (kpodalt.poll_cycle (Some [r0; r1; r2; r3; r4; r5; r6; r7]) alt))
     = note_pairs (Z.to_nat (Z.abs (unpack_h r1 r2)))
         (if 0 <? unpack_h r1 r2 then 100 else 101).
Proof.
  split.
  - revert st. induction responses as [|r rest IH]; intros st; [reflexivity|].
    rewrite kpodalt_main_cons, kpod_main_cons. unfold button_msgs in *.
    rewrite !msgs_in_app.
    destruct (script_response_cases r)
      as [(a0 & a1 & a2 & a3 & a4 & a5 & a6 & a7 & ->)|(Hk & Ha & _)].
    + rewrite kpodalt_cycle_trace.
      destruct (kpod_cycle_trace a0 a1 a2 a3 a4 a5 a6 a7 st) as [Htr Hlf].
      cbv zeta in Htr, Hlf. rewrite Htr.
      cbn [trace_of state_of fst snd kpodalt.last_flags].
      rewrite <- IH, Hlf, !msgs_in_app.
      rewrite !msgs_in_pairs_outside; [reflexivity | |].
      * pose proof (script_encoder_note_range (byte_to_Z a3) (unpack_h a1 a2)). lia.
      * destruct (0 <? unpack_h a1 a2); lia.
    + rewrite Hk, Ha. cbn [trace_of state_of fst snd]. rewrite IH. reflexivity.
  - rewrite kpodalt_cycle_trace. cbn [trace_of snd]. unfold encoder_msgs.
    rewrite msgs_in_app.
    destruct (script_button_part_class (byte_to_Z r3) (kpodalt.last_flags alt)) as [_ Hbt].
    unfold encoder_msgs in Hbt. rewrite Hbt, app_nil_r.
    apply msgs_in_pairs_inside. destruct (0 <? unpack_h r1 r2); lia.
Qed.

(** X17. While every report has the rocker held left (bit 6 of the control
    byte set), kpodalt.py and kpod.py send the very same MIDI stream. *)
Theorem X17_kpodalt_as_kpod_rocker_left responses st :
  Forall rocker_left responses ->
  trace_of (kpodalt.main responses {| kpodalt.last_flags := kpod.last_flags st |})
  = trace_of (kpod.main responses st).
Proof.
  intros Hleft. revert st. induction Hleft as [|r rest Hr _ IH]; intros st; [reflexivity|].
  rewrite kpodalt_main_cons, kpod_main_cons.
  destruct (script_response_cases r)
    as [(a0 & a1 & a2 & a3 & a4 & a5 & a6 & a7 & ->)|(Hk & Ha & _)].
  - rewrite kpodalt_cycle_trace.
    destruct (kpod_cycle_trace a0 a1 a2 a3 a4 a5 a6 a7 st) as [Htr Hlf].
    cbv zeta in Htr, Hlf. rewrite Htr.
    cbn [trace_of state_of fst snd kpodalt.last_flags].
    rewrite <- IH, Hlf. f_equal. f_equal. f_equal.
    cbn [rocker_left] in Hr. unfold script_encoder_note, script_encoder_notes.
    destruct (Z.eqb_spec (Z.land (byte_to_Z a3) 64) 0); [contradiction|].
    reflexivity.
  - rewrite Hk, Ha. cbn [trace_of state_of fst snd]. apply IH.
Qed.

(** X17 at work: two taps with ticks, rocker left. *)
Lemma X17_kpodalt_as_kpod_rocker_left_witness :
  trace_of (kpodalt.main [report x75 x01 x00 x41; report x75 xff xff x42] kpodalt.init)
  = trace_of (kpod.main [report x75 x01 x00 x41; report x75 xff xff x42] kpod.init).
Proof.
  refine (X17_kpodalt_as_kpod_rocker_left
            [report x75 x01 x00 x41; report x75 xff xff x42] kpod.init _).
  repeat constructor; discriminate.
Defined.

Lemma note_stream_app P s1 s2 :
  note_stream P s1 -> note_stream P s2 -> note_stream P (s1 ++ s2).
Proof.
  intros H1 H2. induction H1 as [|n rest Hn _ IH]; [assumption|].
  cbn [app]. constructor; assumption.
Qed.

Lemma note_stream_pairs P k note : P note -> note_stream P (note_pairs k note).
Proof.
  intros Hn. induction k as [|k IH]; [constructor|].
  cbn [note_pairs]. apply (note_stream_app P (note_pair note 127)); [|assumption].
  apply note_stream_cons; [assumption | constructor].
Qed.

Lemma script_button_part_stream flags last :
  note_stream script_note (script_button_part flags last).
Proof.
  unfold script_button_part. destruct (flags =? last); [constructor|].
  destruct (flags_note flags) as [n|] eqn:Hn; [|constructor].
  apply flags_note_range in Hn.
  apply note_stream_cons; [left; assumption | constructor].
Qed.

(** X10. Every MIDI message any of the three programs sends is part of a
    Note-On/Note-Off pair with Note-On velocity 127 on a note of the
    program: for the GUI bridge a button note 64..79, an encoder note
    100..103 or a rocker note 110..112; for the scripts a button note 64..79
    or an encoder note 100..105.  All are valid MIDI data bytes. *)
Theorem X10_streams_of_known_notes responses self st alt :
  note_stream gui_note (gui_main.midi_sent (trace_of (gui_main.kpod_worker responses self)))
  /\ note_stream script_note (trace_of (kpod.main responses st))
  /\ note_stream script_note (trace_of (kpodalt.main responses alt))
  /\ (forall n, gui_note n \/ script_note n -> 0 <= n <= 127).
Proof.
  split; [|split; [|split]].
  - destruct (worker_form responses (gui_main.current_rocker self))
      as (ps & L & q & (_ & _ & _ & Hok) & _ & Hrun).
    destruct (Hrun (gui_main.midi_out self)) as [Hrun' _].
    rewrite <- bridge_eta in Hrun'. rewrite Hrun'. cbn [trace_of snd].
    destruct (gui_main.midi_out self); cbn [is_open];
      [|rewrite midi_sent_play_closed; constructor].
    rewrite midi_sent_play_open. induction Hok as [|a l Ha _ IH]; [constructor|].
    cbn [flat_map]. apply (note_stream_app gui_note (note_pair (action_note a) 127));
      [|assumption].
    apply note_stream_cons; [apply action_ok_note; assumption | constructor].
  - revert st. induction responses as [|r rest IH]; intros st; [constructor|].
    rewrite kpod_main_cons. apply note_stream_app; [|apply IH].
    destruct (script_response_cases r)
      as [(a0 & a1 & a2 & a3 & a4 & a5 & a6 & a7 & ->)|(Hk & _ & _)].
    + destruct (kpod_cycle_trace a0 a1 a2 a3 a4 a5 a6 a7 st) as [Htr _].
      cbv zeta in Htr. rewrite Htr.
      apply note_stream_app; [|apply script_button_part_stream].
      apply note_stream_pairs. right. apply script_encoder_note_range.
    + rewrite Hk. constructor.
  - revert alt. induction responses as [|r rest IH]; intros alt; [constructor|].
    rewrite kpodalt_main_cons. apply note_stream_app; [|apply IH].
    destruct (script_response_cases r)
      as [(a0 & a1 & a2 & a3 & a4 & a5 & a6 & a7 & ->)|(_ & Ha & _)].
    + rewrite kpodalt_cycle_trace. cbn [trace_of snd].
      apply note_stream_app; [|apply script_button_part_stream].
      apply note_stream_pairs. right. destruct (0 <? unpack_h a1 a2); lia.
    + rewrite Ha. constructor.
  - unfold gui_note, script_note. intros n Hn. lia.
Qed.
End ScriptVariants.

(** ** Rejected responses in a run *)

(** X18. Rejected responses (missing, of another length, or without the
    echo of the update command) leave no mark on a run of the GUI worker
    wherever they occur: the final state and the whole trace are those of
    the run on the other responses alone. *)
Theorem X18_rejected_responses_invisible responses self :
  gui_main.kpod_worker responses self
  = gui_main.kpod_worker (List.filter well_formed responses) self.
Proof.
  revert self. induction responses as [|r rest IH]; intros self; [reflexivity|].
  cbn [List.filter]. destruct (well_formed r) eqn:Hr.
  - cbn [gui_main.kpod_worker]. rewrite !bind_run, IH. reflexivity.
  - cbn [gui_main.kpod_worker]. rewrite bind_skip; [apply IH|].
    destruct r as [[|r0 [|r1 [|r2 [|r3 [|r4 [|r5 [|r6 [|r7 [|r8 r]]]]]]]]]|];
      try reflexivity.
    unfold gui_main.poll_cycle. cbn [well_formed] in Hr. rewrite Hr. reflexivity.
Qed.
